(** * operator-sdk: chart acquisition pipeline, build command guard and
      watch options

    A shallow embedding of three pieces of the repository:

    - package [sdk] ([WatchOp], [NewWatchOp], [setDefaults],
      [WithWatchOptions]);
    - package [cmd] ([buildFunc] and [NewBuildCmd] of the [build]
      sub-command, [NewRootCmd] and [initConfig] of the root command);
    - package [chartutil] of the Helm plugin ([CreateChart] and the
      functions it calls).

    Go values are modelled as follows.  An [int] is a [Z] (no arithmetic is
    performed on it, so no wrap-around has to be written out).  A [string] is
    a [string].  An [error] is its message; a nilable error is an
    [option error] with [None] for [nil].  A pointer result that may be
    [nil] is an [option].  A pair [(value, error)] returned by a library call
    is a [result]: the Go code never looks at the value when the error is
    non-nil.

    Calls into the Go standard library, Helm, kubebuilder and the operating
    system are not part of the repository.  They are fields of a record of
    externals ([Env], [BuildEnv]) over an arbitrary type of worlds, and the
    theorems hold for every such record; where a property depends on what a
    library call does, its contract is an explicit hypothesis. *)

From Stdlib Require Import ZArith List String Ascii Bool Lia.
From stdpp Require Import base option strings gmap.
Import ListNotations.

Local Open Scope string_scope.
Local Open Scope Z_scope.

(** ** Go basics *)

(** The message of a non-nil [error]. *)
Definition error : Type := string.

(** The outcome of a library call returning [(T, error)]: a value with a
    nil error, or an error.  For a call returning a pointer this takes the
    library's convention that the pointer is not nil when the error is. *)
Inductive result (A : Type) : Type :=
| Ok (a : A)
| Err (e : error).
Arguments Ok {A} a.
Arguments Err {A} e.

(** [len(s) == 0] on a Go string. *)
Definition len0 (s : string) : bool := Nat.eqb (String.length s) 0.

(** [fmt.Errorf(ctx + "%v", err)]: a new error whose message is the text
    [ctx] of the format before the verb, followed by the message of [err]. *)
Definition Errorf_v (ctx : string) (err : error) : error :=
  String.append ctx err.

(** ** Package sdk: watch options *)

Module Sdk.

(** [type WatchOp struct { NumWorkers int }] *)
Record WatchOp : Type := mkWatchOp { NumWorkers : Z }.

(** [type WatchOption]: a function on a pointer to a [WatchOp] that
    mutates the operation in place, here a state transformer. *)
Definition WatchOption : Type := WatchOp -> WatchOp.

(** Method [setDefaults] of [WatchOp] (pointer receiver). *)
Definition setDefaults (op : WatchOp) : WatchOp :=
  if NumWorkers op =? 0 then mkWatchOp 1 else op.

(** [NewWatchOp]: the zero value, then [setDefaults]. *)
Definition NewWatchOp : WatchOp := setDefaults (mkWatchOp 0).

(** Method [applyOpts] of [WatchOp]: runs each option on the receiver, in
    order. *)
Definition applyOpts (opts : list WatchOption) (op : WatchOp) : WatchOp :=
  fold_left (fun o opt => opt o) opts op.

(** [WithWatchOptions numWorkers]: the option that stores the number of
    workers. *)
Definition WithWatchOptions (numWorkers : Z) : WatchOption :=
  fun _ => mkWatchOp numWorkers.

End Sdk.

(** ** Package cmd: the build sub-command *)

Module Cmd.

(** The two exit codes of package [cmdError] that [buildFunc] uses. *)
Inductive ExitCode : Type :=
| ExitError
| ExitBadArgs.

(** How a run of a command function ends: it returns, the process exits
    through [cmdError.ExitWithError], or the Go runtime panics. *)
Inductive Outcome (A : Type) : Type :=
| Returned (a : A)
| Exited (code : ExitCode) (e : error)
| Panicked (msg : string).
Arguments Returned {A} a.
Arguments Exited {A} code e.
Arguments Panicked {A} msg.

(** Script paths, the constants of [build.go]. *)
Definition build : string := "./tmp/build/build.sh".
Definition dockerBuild : string := "./tmp/build/docker_build.sh".
Definition configYaml : string := "./config/config.yaml".

Section Build.

Context {W Cfg : Type}.

(** What [buildFunc] calls outside the repository's sources: [os/exec],
    [os], [io/ioutil], and the repository's [cmdutil] and [generator]
    packages. *)
Record BuildEnv : Type := {
  (** [exec.Command(script)], with [Env] set when given, then
      [CombinedOutput()]. *)
  exec_CombinedOutput :
    string -> option (list string) -> W -> (string * option error) * W;
  os_Environ : W -> list string;
  cmdutil_GetConfig : W -> Cfg;
  generator_RenderOperatorYaml : Cfg -> string -> W -> option error * W;
  generator_RenderCustomOperatorYaml :
    Cfg -> string -> string -> W -> option error * W;
  ioutil_ReadFile : string -> W -> result string
}.

(** The state a run threads: the outside world, the scripts started so far
    (oldest first) and the lines written to standard output. *)
Record BState : Type := mkBState {
  bworld : W;
  executed : list string;
  bstdout : list string
}.

(** Programs that may exit or panic half-way. *)
Definition Prog (A : Type) : Type := BState -> Outcome A * BState.

Definition pret {A} (a : A) : Prog A := fun s => (Returned a, s).

Definition pbind {A B} (m : Prog A) (k : A -> Prog B) : Prog B :=
  fun s =>
    match m s with
    | (Returned a, s') => k a s'
    | (Exited code e, s') => (Exited code e, s')
    | (Panicked msg, s') => (Panicked msg, s')
    end.

Notation "'let*' x := m 'in' k" := (pbind m (fun x => k))
  (at level 10, x name, m at level 100, k at level 200).

(** Modelled from the spec: [cmdError.ExitWithError] (package
    [commands/operator-sdk/error], not among the sources) ends the process
    with the given exit code and error; nothing after the call runs. *)
Definition ExitWithError {A} (code : ExitCode) (e : error) : Prog A :=
  fun s => (Exited code e, s).

(** [args[i]]: a run-time panic when the index is out of range. *)
Definition index (args : list string) (i : nat) : Prog string :=
  fun s =>
    match nth_error args i with
    | Some a => (Returned a, s)
    | None => (Panicked "index out of range", s)
    end.

(** [fmt.Fprintln(os.Stdout, line)] *)
Definition Println (line : string) : Prog unit :=
  fun s => (Returned tt, mkBState (bworld s) (executed s) (bstdout s ++ [line])%list).

Variable E : BuildEnv.

Definition run (script : string) (env : option (list string))
  : Prog (string * option error) :=
  fun s =>
    let '(r, w) := exec_CombinedOutput E script env (bworld s) in
    (Returned r, mkBState w (executed s ++ [script])%list (bstdout s)).

Definition environ : Prog (list string) :=
  fun s => (Returned (os_Environ E (bworld s)), s).

Definition getConfig : Prog Cfg :=
  fun s => (Returned (cmdutil_GetConfig E (bworld s)), s).

Definition render (f : W -> option error * W) : Prog (option error) :=
  fun s =>
    let '(r, w) := f (bworld s) in
    (Returned r, mkBState w (executed s) (bstdout s)).

Definition readFile (name : string) : Prog (result string) :=
  fun s => (Returned (ioutil_ReadFile E name (bworld s)), s).

(** The condition of the first [if] of [buildFunc]:
    [len(args) != 1 || len(args) != 2]. *)
Definition badArgCount (args : list string) : bool :=
  negb (Nat.eqb (length args) 1) || negb (Nat.eqb (length args) 2).

(** [func buildFunc(cmd *cobra.Command, args []string)] *)
Definition buildFunc (args : list string) : Prog unit :=
  let* _ := (if badArgCount args
   then ExitWithError ExitBadArgs "build command needs at least 1 argument."
   else pret tt) in
  let* r := run build None in
  let* _ := (match snd r with
   | Some _ =>
       ExitWithError ExitError
         (String.append "failed to build: (" (String.append (fst r) ")"))
   | None => pret tt
   end) in
  let* _ := Println (fst r) in
  let* image := index args 0 in
  let* env := environ in
  let* r := run dockerBuild (Some (env ++ [String.append "IMAGE=" image])%list) in
  let* _ := (match snd r with
   | Some _ =>
       ExitWithError ExitError
         (String.append "failed to output build image "
            (String.append image
               (String.append ": (" (String.append (fst r) ")"))))
   | None => pret tt
   end) in
  let* _ := Println (fst r) in
  let* c := getConfig in
  if Nat.eqb (length args) 1 then
    let* renderErr := render (generator_RenderOperatorYaml E c image) in
    match renderErr with
    | Some e =>
        ExitWithError ExitError
          (String.append "failed to generate deploy/operator.yaml: ("
             (String.append e ")"))
    | None => pret tt
    end
  else if Nat.eqb (length args) 2 then
    let* name := index args 2 in
    let* f := readFile name in
    match f with
    | Err fileErr =>
        ExitWithError ExitError
          (String.append "failed to read template file: ("
             (String.append fileErr ")"))
    | Ok templFile =>
        let* renderErr :=
          render (generator_RenderCustomOperatorYaml E c image templFile) in
        match renderErr with
        | Some e =>
            ExitWithError ExitError
              (String.append "failed to generate deploy/operator.yaml: ("
                 (String.append e ")"))
        | None => pret tt
        end
    end
  else pret tt.

End Build.

Arguments BuildEnv : clear implicits.
Arguments BState : clear implicits.

End Cmd.

(** ** Identifier casing *)

Module Strcase.

Definition isLower (v : ascii) : bool := (("a" <=? v) && (v <=? "z"))%char.
Definition isUpper (v : ascii) : bool := (("A" <=? v) && (v <=? "Z"))%char.
Definition isDigit (v : ascii) : bool := (("0" <=? v) && (v <=? "9"))%char.

(** The characters that end a word: underscore, space, hyphen and dot. *)
Definition isSeparator (v : ascii) : bool :=
  (Ascii.eqb v "_" || Ascii.eqb v " " || Ascii.eqb v "-" || Ascii.eqb v ".")%char.

Definition upper (v : ascii) : ascii :=
  ascii_of_nat (nat_of_ascii v - 32).

(** One pass over the bytes of the name; [capNext] says whether the next
    letter starts a word. *)
Fixpoint camelFrom (capNext : bool) (s : string) : string :=
  match s with
  | EmptyString => EmptyString
  | String v rest =>
      if isLower v then
        String (if capNext then upper v else v) (camelFrom false rest)
      else if isUpper v || isDigit v then String v (camelFrom false rest)
      else camelFrom (isSeparator v) rest
  end.

(** Modelled from the spec: [strcase.ToCamel] of the module
    [github.com/iancoleman/strcase], which is not among the sources.  It
    converts a lowercase, hyphenated name to an upper-camel-case identifier:
    separators are dropped and the first letter of every word is
    capitalised. *)
Definition ToCamel (s : string) : string := camelFrom true s.

End Strcase.

(** ** Package chartutil: the chart acquisition pipeline *)

Module Chartutil.

(** The relative directory within an SDK project where Helm charts are
    stored. *)
Definition HelmChartsDir : string := "helm-charts".

(** The CRD API group used for fetched charts when no group is given. *)
Definition DefaultGroup : string := "charts".

(** The CRD API version used for fetched charts when no version is given. *)
Definition DefaultVersion : string := "v1alpha1".

(** [schema.GroupVersionKind] *)
Record GroupVersionKind : Type := mkGVK {
  gvk_Group : string;
  gvk_Version : string;
  gvk_Kind : string
}.

(** [type CreateOptions struct] *)
Record CreateOptions : Type := mkCreateOptions {
  opts_GVK : GroupVersionKind;
  opts_Chart : string;
  opts_Repo : string;
  opts_Version : string;
  opts_CRDVersion : string;
  opts_Domain : string
}.

(** A template file of a chart: its name and its data. *)
Record File : Type := mkFile {
  file_Name : string;
  file_Data : string
}.

(** [chart.Chart], as far as the pipeline and its properties look at it:
    the name of its metadata (what [c.Name()] returns), its templates and
    the dependencies its metadata declares. *)
Record Chart : Type := mkChart {
  Name : string;
  Templates : list File;
  Dependencies : list string
}.

(** [golang.Options] of kubebuilder, with the fields [NewResource] sets; the
    other fields keep their zero value. *)
Record Options : Type := mkOptions {
  ro_DoAPI : bool;
  ro_Namespaced : bool;
  ro_Domain : string;
  ro_CRDVersion : string;
  ro_Group : string;
  ro_Version : string;
  ro_Kind : string
}.

(** [resource.Resource] of kubebuilder: the group, domain, version and kind
    of its embedded GVK, its plural and the path of its Go package. *)
Record Resource : Type := mkResource {
  r_Group : string;
  r_Domain : string;
  r_Version : string;
  r_Kind : string;
  r_Plural : string;
  r_Path : string
}.

(** The calls the pipeline makes, for the trace. *)
Inductive Event : Type :=
| EvTempDir (dir pattern : string)
| EvRemoveAll (path : string)
| EvStat (name : string)
| EvLoad (name : string)
| EvCreate (name dir : string)
| EvSaveDir (chartName dest : string)
| EvFindChartInRepoURL (repoURL chartName chartVersion : string)
| EvDownloadTo (ref version dest : string)
| EvBuild (chartPath : string).

(** The calls that only the fetch path makes: the existence check, the copy
    into the workspace and the two calls to a repository. *)
Definition fetch_event (ev : Event) : bool :=
  match ev with
  | EvStat _ | EvSaveDir _ _ | EvFindChartInRepoURL _ _ _
  | EvDownloadTo _ _ _ => true
  | _ => false
  end.

(** The two calls on the workspace directory itself. *)
Definition workspace_event (ev : Event) : bool :=
  match ev with
  | EvTempDir _ _ | EvRemoveAll _ => true
  | _ => false
  end.

(** The calls that reach a remote repository. *)
Definition remote_event (ev : Event) : bool :=
  match ev with
  | EvFindChartInRepoURL _ _ _ | EvDownloadTo _ _ _ => true
  | _ => false
  end.

Section Pipeline.

Context {W Cfg : Type}.

(** What the pipeline calls outside the repository: the operating system
    ([ioutil.TempDir], [os.RemoveAll], [os.Stat]), Helm ([loader.Load],
    [chartutil.Create], [chartutil.SaveDir], [repo.FindChartInRepoURL],
    [ChartDownloader.DownloadTo], [Manager.Build]), kubebuilder
    ([golang.Options.NewResource], [config.Config.GetDomain]) and the Go
    library ([strings.ToLower], [filepath.Join]).  The Helm settings of
    [cli.New()] and the getters are part of the world.  [os.Stat] and
    [loader.Load] only read the world.  [Manager.Build] also returns what it
    wrote to its [Out] writer. *)
Record Env : Type := {
  ioutil_TempDir : string -> string -> W -> result string * W;
  os_RemoveAll : string -> W -> option error * W;
  os_Stat : string -> W -> option error;
  loader_Load : string -> W -> result Chart;
  chartutil_Create : string -> string -> W -> result string * W;
  chartutil_SaveDir : Chart -> string -> W -> option error * W;
  repo_FindChartInRepoURL :
    string -> string -> string -> W -> result string * W;
  downloader_DownloadTo :
    string -> string -> string -> W -> result string * W;
  manager_Build : string -> W -> (string * option error) * W;
  golang_NewResource : Options -> Cfg -> Resource;
  config_GetDomain : Cfg -> string;
  strings_ToLower : string -> string;
  filepath_Join : string -> string -> string
}.

(** The state a run threads: the outside world, and three records kept to
    state properties of a run: the library calls made so far (oldest
    first), the lines printed to standard output and the lines logged at
    error level. *)
Record State : Type := mkState {
  world : W;
  trace : list Event;
  stdout : list string;
  logs : list string
}.

Definition M (A : Type) : Type := State -> A * State.

Definition ret {A} (a : A) : M A := fun s => (a, s).

Definition bind {A B} (m : M A) (k : A -> M B) : M B :=
  fun s => let '(a, s') := m s in k a s'.

(** A library call that may change the world. *)
Definition call {A} (ev : Event) (f : W -> A * W) : M A :=
  fun s =>
    let '(a, w) := f (world s) in
    (a, mkState w (trace s ++ [ev]) (stdout s) (logs s)).

(** A library call that only reads the world. *)
Definition read {A} (ev : Event) (f : W -> A) : M A :=
  fun s => (f (world s), mkState (world s) (trace s ++ [ev]) (stdout s) (logs s)).

(** [fmt.Println(line)] *)
Definition fmt_Println (line : string) : M unit :=
  fun s => (tt, mkState (world s) (trace s) (stdout s ++ [line]) (logs s)).

(** [log.Errorf] with the formatted line. *)
Definition log_Errorf (line : string) : M unit :=
  fun s => (tt, mkState (world s) (trace s) (stdout s) (logs s ++ [line])).

(** [defer d] before [body]: [d] runs when [body] has returned, and the
    values [body] returned are the values of the function. *)
Definition defer {A} (d : M unit) (body : M A) : M A :=
  bind body (fun r => bind d (fun _ => ret r)).

Notation "'let*' x := m 'in' k" := (bind m (fun x => k))
  (at level 10, x name, m at level 100, k at level 200).

Variable E : Env.

(** Method [NewResource] of [CreateOptions]. *)
Definition NewResource (opts : CreateOptions) (cfg : Cfg) : Resource :=
  let ro :=
    {| ro_DoAPI := true;
       ro_Namespaced := true;
       ro_Domain := opts_Domain opts;
       ro_CRDVersion := opts_CRDVersion opts;
       ro_Group := gvk_Group (opts_GVK opts);
       ro_Version := gvk_Version (opts_GVK opts);
       ro_Kind := gvk_Kind (opts_GVK opts) |} in
  let r := golang_NewResource E ro cfg in
  (* r.Domain = cfg.GetDomain() *)
  let r :=
    mkResource (r_Group r) (config_GetDomain E cfg) (r_Version r) (r_Kind r)
      (r_Plural r) (r_Path r) in
  (* r.Path = "": not a Go project *)
  mkResource (r_Group r) (r_Domain r) (r_Version r) (r_Kind r) (r_Plural r) "".

(** [scaffoldChart]: it returns [(nil, nil, err)] or a resource and a chart
    with a nil error, here a [result]. *)
Definition scaffoldChart (cfg : Cfg) (destDir : string) (opts : CreateOptions)
  : M (result (Resource * Chart)) :=
  let name := strings_ToLower E (gvk_Kind (opts_GVK opts)) in
  let* created := call (EvCreate name destDir) (chartutil_Create E name destDir) in
  match created with
  | Err err => ret (Err err)
  | Ok chartPath =>
      let* loaded := read (EvLoad chartPath) (loader_Load E chartPath) in
      match loaded with
      | Err err => ret (Err err)
      | Ok chart => ret (Ok (NewResource opts cfg, chart))
      end
  end.

(** [createChartFromDisk] *)
Definition createChartFromDisk (destDir source : string) : M (result Chart) :=
  let* loaded := read (EvLoad source) (loader_Load E source) in
  match loaded with
  | Err err => ret (Err err)
  | Ok chart =>
      (* Save it into destDir. *)
      let* saved :=
        call (EvSaveDir (Name chart) destDir) (chartutil_SaveDir E chart destDir) in
      match saved with
      | Some err => ret (Err err)
      | None => ret (Ok chart)
      end
  end.

(** [opts.Chart = chartURL] on the function's own copy of the options. *)
Definition with_Chart (opts : CreateOptions) (chartRef : string) : CreateOptions :=
  mkCreateOptions (opts_GVK opts) chartRef (opts_Repo opts) (opts_Version opts)
    (opts_CRDVersion opts) (opts_Domain opts).

(** [createChartFromRemote]; the user name, password and certificate
    arguments of [repo.FindChartInRepoURL] are empty strings in the source
    and left out here. *)
Definition createChartFromRemote (destDir : string) (opts : CreateOptions)
  : M (result Chart) :=
  let* resolved :=
    (if negb (String.eqb (opts_Repo opts) "") then
       let* found :=
         call
           (EvFindChartInRepoURL (opts_Repo opts) (opts_Chart opts) (opts_Version opts))
           (repo_FindChartInRepoURL E (opts_Repo opts) (opts_Chart opts)
              (opts_Version opts)) in
       match found with
       | Err err => ret (Err err)
       | Ok chartURL => ret (Ok (with_Chart opts chartURL))
       end
     else ret (Ok opts)) in
  match resolved with
  | Err err => ret (Err err)
  | Ok opts =>
      let* downloaded :=
        call (EvDownloadTo (opts_Chart opts) (opts_Version opts) destDir)
          (downloader_DownloadTo E (opts_Chart opts) (opts_Version opts) destDir) in
      match downloaded with
      | Err err => ret (Err err)
      | Ok chartArchive => createChartFromDisk destDir chartArchive
      end
  end.

(** The options with another group, version and kind: the assignments to
    [opts.GVK] in [fetchChart] act on the function's own copy. *)
Definition with_GVK (opts : CreateOptions) (gvk : GroupVersionKind) : CreateOptions :=
  mkCreateOptions gvk (opts_Chart opts) (opts_Repo opts) (opts_Version opts)
    (opts_CRDVersion opts) (opts_Domain opts).

(** [fetchChart]: it returns [(nil, nil, err)] or a resource and a chart with
    a nil error, here a [result]. *)
Definition fetchChart (cfg : Cfg) (destDir : string) (opts : CreateOptions)
  : M (result (Resource * Chart)) :=
  let* st := read (EvStat (opts_Chart opts)) (os_Stat E (opts_Chart opts)) in
  let* fetched :=
    match st with
    | None => createChartFromDisk destDir (opts_Chart opts)
    | Some _ => createChartFromRemote destDir opts
    end in
  match fetched with
  | Err err => ret (Err err)
  | Ok chart =>
      let chartName := Name chart in
      let gvk := opts_GVK opts in
      let gvk :=
        if len0 (gvk_Group gvk)
        then mkGVK DefaultGroup (gvk_Version gvk) (gvk_Kind gvk) else gvk in
      let gvk :=
        if len0 (gvk_Version gvk)
        then mkGVK (gvk_Group gvk) DefaultVersion (gvk_Kind gvk) else gvk in
      let gvk :=
        if len0 (gvk_Kind gvk)
        then mkGVK (gvk_Group gvk) (gvk_Version gvk) (Strcase.ToCamel chartName)
        else gvk in
      ret (Ok (NewResource (with_GVK opts gvk) cfg, chart))
  end.

(** [fetchChartDependencies]: the manager writes to a buffer, which is
    printed only when the build fails. *)
Definition fetchChartDependencies (chartPath : string) : M (option error) :=
  let* built := call (EvBuild chartPath) (manager_Build E chartPath) in
  match snd built with
  | Some err =>
      let* _ := fmt_Println (fst built) in
      ret (Some err)
  | None => ret None
  end.

(** The function deferred by [CreateChart]: its [err] is a variable of its
    own, not the named result. *)
Definition removeTempDir (tmpDir : string) : M unit :=
  let* removed := call (EvRemoveAll tmpDir) (os_RemoveAll E tmpDir) in
  match removed with
  | Some err =>
      log_Errorf
        (String.append "Failed to remove temporary chart directory "
           (String.append tmpDir (String.append ": " err)))
  | None => ret tt
  end.

(** The end of [CreateChart], once a resource and a chart are there:
    dependencies, then the reload. *)
Definition resolveAndReload (tmpDir : string) (r : Resource) (c : Chart)
  : M (option Resource * option Chart * option error) :=
  let absChartPath := filepath_Join E tmpDir (Name c) in
  let* failed := fetchChartDependencies absChartPath in
  match failed with
  | Some err =>
      ret (None, None, Some (Errorf_v "failed to fetch chart dependencies: " err))
  | None =>
      (* Reload chart in case dependencies changed *)
      let* loaded := read (EvLoad absChartPath) (loader_Load E absChartPath) in
      match loaded with
      | Err err => ret (None, None, Some (Errorf_v "failed to load chart: " err))
      | Ok c => ret (Some r, Some c, None)
      end
  end.

(** The body of [CreateChart] after the [defer] statement. *)
Definition createIn (cfg : Cfg) (opts : CreateOptions) (tmpDir : string)
  : M (option Resource * option Chart * option error) :=
  (* If we don't have a helm chart reference, scaffold the default chart
     from Helm's default template. Otherwise, fetch it. *)
  if len0 (opts_Chart opts) then
    let* scaffolded := scaffoldChart cfg tmpDir opts in
    match scaffolded with
    | Err err =>
        ret (None, None, Some (Errorf_v "failed to scaffold default chart: " err))
    | Ok (r, c) => resolveAndReload tmpDir r c
    end
  else
    let* fetched := fetchChart cfg tmpDir opts in
    match fetched with
    | Err err => ret (None, None, Some (Errorf_v "failed to fetch chart: " err))
    | Ok (r, c) => resolveAndReload tmpDir r c
    end.

(** [CreateChart].  The deferred removal runs on every return of the body;
    the library calls are taken not to panic. *)
Definition CreateChart (cfg : Cfg) (opts : CreateOptions)
  : M (option Resource * option Chart * option error) :=
  let* allocated :=
    call (EvTempDir "" "osdk-helm-chart") (ioutil_TempDir E "" "osdk-helm-chart") in
  match allocated with
  | Err err => ret (None, None, Some err)
  | Ok tmpDir => defer (removeTempDir tmpDir) (createIn cfg opts tmpDir)
  end.

End Pipeline.

Arguments Env : clear implicits.
Arguments State : clear implicits.
Arguments M : clear implicits.

End Chartutil.

(** ** Contracts of the library calls

    What the properties below assume of the operating system, Helm and
    kubebuilder, each where it is used and nowhere else. *)

Module Contract.
Import Chartutil.

Section Laws.

Context {W Cfg : Type} (E : Env W Cfg).

(** A path exists when [os.Stat] returns no error for it. *)
Definition exists_on_disk (path : string) (w : W) : Prop :=
  os_Stat E path w = None.

(** [os.RemoveAll]: when it returns no error, the path is gone. *)
Definition RemoveAllLaw : Prop :=
  forall path w w',
    os_RemoveAll E path w = (None, w') -> ~ exists_on_disk path w'.

(** [golang.Options.NewResource] copies group, version and kind into the
    resource. *)
Definition GolangLaw : Prop :=
  forall ro cfg,
    r_Group (golang_NewResource E ro cfg) = ro_Group ro /\
    r_Version (golang_NewResource E ro cfg) = ro_Version ro /\
    r_Kind (golang_NewResource E ro cfg) = ro_Kind ro.

(** Helm's chart directories.
    - [chartutil.Create name dir] writes the default chart, named [name] and
      without dependencies, into the directory [name] of [dir] and returns
      the path of that directory.
    - [chartutil.SaveDir c dest] writes [c] into the directory [c.Name()] of
      [dest].
    - [Manager.Build] succeeds only on a chart directory that loads, and
      leaves the name and the templates of a chart without declared
      dependencies as they are. *)
Record HelmLaws : Prop := {
  create_named :
    forall name dir w chartPath w',
      chartutil_Create E name dir w = (Ok chartPath, w') ->
      forall path c,
        path = chartPath \/ path = filepath_Join E dir name ->
        loader_Load E path w' = Ok c ->
        Name c = name /\ Dependencies c = [];
  savedir_load :
    forall c dest w w',
      chartutil_SaveDir E c dest w = (None, w') ->
      forall c',
        loader_Load E (filepath_Join E dest (Name c)) w' = Ok c' ->
        Name c' = Name c /\ Templates c' = Templates c /\
        Dependencies c' = Dependencies c;
  build_nodeps :
    forall chartPath w out w',
      manager_Build E chartPath w = ((out, None), w') ->
      exists c,
        loader_Load E chartPath w = Ok c /\
        (Dependencies c = [] ->
         forall c',
           loader_Load E chartPath w' = Ok c' ->
           Name c' = Name c /\ Templates c' = Templates c)
}.

End Laws.

End Contract.

(** ** Stages of the pipeline and the context each puts on an error *)

Module Stages.
Import Chartutil.

Inductive Stage : Type :=
| Scaffold
| Fetch
| ResolveDependencies
| Reload.

(** The text [CreateChart] puts before the error of a failing stage. *)
Definition stage_context (st : Stage) : string :=
  match st with
  | Scaffold => "failed to scaffold default chart: "
  | Fetch => "failed to fetch chart: "
  | ResolveDependencies => "failed to fetch chart dependencies: "
  | Reload => "failed to load chart: "
  end.

(** Either a resource and a chart with a nil error, or nil twice with the
    error of a stage under that stage's context. *)
Definition all_or_nothing
  (res : option Resource * option Chart * option error) : Prop :=
  (exists r c, res = (Some r, Some c, None)) \/
  (exists st cause,
     res = (None, None, Some (Errorf_v (stage_context st) cause))).

(** The group, version and kind after the defaulting of [fetchChart] for a
    chart [c]. *)
Definition derivedGVK (given : GroupVersionKind) (c : Chart) : GroupVersionKind :=
  mkGVK
    (if len0 (gvk_Group given) then DefaultGroup else gvk_Group given)
    (if len0 (gvk_Version given) then DefaultVersion else gvk_Version given)
    (if len0 (gvk_Kind given) then Strcase.ToCamel (Name c) else gvk_Kind given).

(** The line [CreateChart] logs when the workspace cannot be removed. *)
Definition removal_failure (tmpDir : string) (err : error) : string :=
  String.append "Failed to remove temporary chart directory "
    (String.append tmpDir (String.append ": " err)).

(** The workspace of a run is gone when the run returns: the directory
    [ioutil.TempDir] allocated does not exist in the final world. *)
Definition workspace_gone_after {W Cfg : Type} (E : Env W Cfg)
  (cfg : Cfg) (opts : CreateOptions) (s : State W) : Prop :=
  forall tmpDir w1,
    ioutil_TempDir E "" "osdk-helm-chart" (world s) = (Ok tmpDir, w1) ->
    ~ Contract.exists_on_disk E tmpDir (world (snd (CreateChart E cfg opts s))).

(** The options with another repository URL and chart version. *)
Definition with_source (opts : CreateOptions) (repoURL version : string)
  : CreateOptions :=
  mkCreateOptions (opts_GVK opts) (opts_Chart opts) repoURL version
    (opts_CRDVersion opts) (opts_Domain opts).

(** The externals with another [os.RemoveAll]. *)
Definition with_RemoveAll {W Cfg : Type} (E : Env W Cfg)
  (f : string -> W -> option error * W) : Env W Cfg :=
  {| ioutil_TempDir := ioutil_TempDir E;
     os_RemoveAll := f;
     os_Stat := os_Stat E;
     loader_Load := loader_Load E;
     chartutil_Create := chartutil_Create E;
     chartutil_SaveDir := chartutil_SaveDir E;
     repo_FindChartInRepoURL := repo_FindChartInRepoURL E;
     downloader_DownloadTo := downloader_DownloadTo E;
     manager_Build := manager_Build E;
     golang_NewResource := golang_NewResource E;
     config_GetDomain := config_GetDomain E;
     strings_ToLower := strings_ToLower E;
     filepath_Join := filepath_Join E |}.

End Stages.

(** ** A sample world

    A small disk with Helm's operations on it, to run the pipeline on
    concrete inputs.  It satisfies the contracts above. *)

Module Sample.
Import Chartutil.

(** The disk: chart directories and archives by path, the other
    directories, the charts a repository serves by reference, whether the
    temporary area is full, and whether directories are busy (cannot be
    removed). *)
Record Disk : Type := mkDisk {
  charts : gmap string Chart;
  dirs : list string;
  served : gmap string Chart;
  full : bool;
  busy : bool
}.

Definition join (dir name : string) : string :=
  String.append dir (String.append "/" name).

(** [path] is [dir] or lies below it. *)
Definition under (dir path : string) : bool :=
  String.eqb dir path || String.prefix (String.append dir "/") path.

Definition lower (v : ascii) : ascii :=
  if Strcase.isUpper v then ascii_of_nat (nat_of_ascii v + 32) else v.

Fixpoint toLower (s : string) : string :=
  match s with
  | EmptyString => EmptyString
  | String v rest => String (lower v) (toLower rest)
  end.

Definition workspace : string := "/tmp/osdk-helm-chart042".

Definition tempDir (dir pattern : string) (w : Disk) : result string * Disk :=
  if full w then (Err "mkdir /tmp/osdk-helm-chart042: no space left on device", w)
  else (Ok workspace,
        mkDisk (charts w) (workspace :: dirs w) (served w) (full w) (busy w)).

Definition removeAll (path : string) (w : Disk) : option error * Disk :=
  if busy w then
    (Some (String.append "unlinkat " (String.append path ": device or resource busy")), w)
  else
    (None,
     mkDisk (filter (fun kv => under path (fst kv) = false) (charts w))
       (List.filter (fun p => negb (under path p)) (dirs w))
       (served w) (full w) (busy w)).

Definition stat (path : string) (w : Disk) : option error :=
  match charts w !! path with
  | Some _ => None
  | None =>
      if existsb (String.eqb path) (dirs w) then None
      else Some (String.append "stat " (String.append path ": no such file or directory"))
  end.

Definition load (path : string) (w : Disk) : result Chart :=
  match charts w !! path with
  | Some c => Ok c
  | None => Err (String.append path ": Chart.yaml file is missing")
  end.

Definition put (path : string) (c : Chart) (w : Disk) : Disk :=
  mkDisk (<[path := c]> (charts w)) (dirs w) (served w) (full w) (busy w).

(** The templates of Helm's default chart, shortened. *)
Definition defaultTemplates : list File :=
  [mkFile "templates/deployment.yaml" "kind: Deployment";
   mkFile "templates/service.yaml" "kind: Service"].

Definition create (name dir : string) (w : Disk) : result string * Disk :=
  (Ok (join dir name), put (join dir name) (mkChart name defaultTemplates []) w).

Definition saveDir (c : Chart) (dest : string) (w : Disk) : option error * Disk :=
  (None, put (join dest (Name c)) c w).

Definition findChartInRepoURL (repoURL chartName chartVersion : string) (w : Disk)
  : result string * Disk :=
  (Ok (String.append repoURL (String.append "/" chartName)), w).

Definition downloadTo (ref version dest : string) (w : Disk) : result string * Disk :=
  match served w !! ref with
  | Some c =>
      let archive := join dest (String.append (Name c) ".tgz") in
      (Ok archive, put archive c w)
  | None => (Err (String.append "chart not found: " ref), w)
  end.

Definition buildDeps (chartPath : string) (w : Disk) : (string * option error) * Disk :=
  match charts w !! chartPath with
  | Some c =>
      match Dependencies c with
      | [] => (("", None), w)
      | d :: _ =>
          ((String.append "Getting updates for unmanaged Helm repositories: " d,
            Some (String.append "no repository definition for " d)), w)
      end
  | None => (("", Some (String.append chartPath ": Chart.yaml file is missing")), w)
  end.

(** A Go project's resource: the path of its API package is not empty, and
    its domain is the one of the options. *)
Definition newResource (ro : Options) (cfg : string) : Resource :=
  mkResource (ro_Group ro) (ro_Domain ro) (ro_Version ro) (ro_Kind ro)
    (String.append (toLower (ro_Kind ro)) "s")
    (String.append "example.com/project/api/" (ro_Version ro)).

(** The sample externals; the project configuration is its domain. *)
Definition env : Env Disk string :=
  {| ioutil_TempDir := tempDir;
     os_RemoveAll := removeAll;
     os_Stat := stat;
     loader_Load := load;
     chartutil_Create := create;
     chartutil_SaveDir := saveDir;
     repo_FindChartInRepoURL := findChartInRepoURL;
     downloader_DownloadTo := downloadTo;
     manager_Build := buildDeps;
     golang_NewResource := newResource;
     config_GetDomain := fun cfg => cfg;
     strings_ToLower := toLower;
     filepath_Join := join |}.

(** A chart directory [./local-chart] named [my-app], without
    dependencies, and a chart [stable/web] in a repository. *)
Definition myApp : Chart :=
  mkChart "my-app" [mkFile "templates/app.yaml" "kind: Deployment"] [].

Definition web : Chart :=
  mkChart "web" [mkFile "templates/web.yaml" "kind: Service"] [].

Definition disk (isFull isBusy : bool) : Disk :=
  mkDisk {["./local-chart" := myApp]} [] {["stable/web" := web]} isFull isBusy.

Definition start (w : Disk) : State Disk := mkState w [] [] [].

Definition noGVK : GroupVersionKind := mkGVK "" "" "".

(** Options for the default chart of kind [Memcached]. *)
Definition scaffoldOpts : CreateOptions :=
  mkCreateOptions (mkGVK "cache" "v1" "Memcached") "" "" "" "v1" "opts.example.com".

(** Options for the local chart, with a repository URL besides. *)
Definition localOpts : CreateOptions :=
  mkCreateOptions noGVK "./local-chart" "https://charts.example.com" "1.2.3"
    "v1" "opts.example.com".

(** Options for a chart of the repository. *)
Definition remoteOpts : CreateOptions :=
  mkCreateOptions noGVK "stable/web" "" "" "v1" "opts.example.com".

(** Options for a chart the repository does not serve. *)
Definition missingOpts : CreateOptions :=
  mkCreateOptions noGVK "myrepo/missing-chart" "" "" "v1" "opts.example.com".

End Sample.

(** ** A sample build machine *)

Module SampleBuild.

(** Both scripts succeed and print one line; the configuration is the
    project name. *)
Definition env : Cmd.BuildEnv unit string :=
  {| Cmd.exec_CombinedOutput := fun script _ w => ((String.append script ": done", None), w);
     Cmd.os_Environ := fun _ => ["PATH=/usr/bin"];
     Cmd.cmdutil_GetConfig := fun _ => "app-operator";
     Cmd.generator_RenderOperatorYaml := fun _ _ w => (None, w);
     Cmd.generator_RenderCustomOperatorYaml := fun _ _ _ w => (None, w);
     Cmd.ioutil_ReadFile := fun _ _ => Ok "kind: Deployment" |}.

Definition start : Cmd.BState unit := Cmd.mkBState tt [] [].

End SampleBuild.

(** ** Package cmd: the root command and its configuration *)

Module Root.

(** The levels of the log lines the root command writes. *)
Inductive Level : Type :=
| InfoLevel
| WarnLevel
| FatalLevel.

(** A run returns, or the process ends in [log.Fatalf] (which logs the line
    and exits). *)
Inductive Outcome (A : Type) : Type :=
| Returned (a : A)
| Fatal.
Arguments Returned {A} a.
Arguments Fatal {A}.

(** [cobra.Command], with the fields the sources set: the usage line, the
    short and long help, the version, the function to run and the
    sub-commands added so far. *)
#[local] Unset Elimination Schemes.
Inductive Command (R : Type) : Type :=
| mkCommand (cmdUse cmdShort cmdLong cmdVersion : string) (cmdRun : option R)
    (commands : list (Command R)).
#[local] Set Elimination Schemes.
Arguments mkCommand {R} cmdUse cmdShort cmdLong cmdVersion cmdRun commands.

Definition Use {R} (c : Command R) : string :=
  match c with mkCommand u _ _ _ _ _ => u end.

Definition Run {R} (c : Command R) : option R :=
  match c with mkCommand _ _ _ _ r _ => r end.

Definition Commands {R} (c : Command R) : list (Command R) :=
  match c with mkCommand _ _ _ _ _ cs => cs end.

(** [cmd.AddCommand(child)] *)
Definition AddCommand {R} (c child : Command R) : Command R :=
  match c with
  | mkCommand u sh lg v r cs => mkCommand u sh lg v r (cs ++ [child])%list
  end.

(** The calls on the global viper configuration, for the record of a run. *)
Inductive ViperCall : Type :=
| SetConfigFile (file : string)
| AddConfigPath (path : string)
| SetConfigName (name : string)
| SetEnvPrefix (prefix : string)
| AutomaticEnv
| ReadInConfig
| BindPFlags.

(** The characters a Rocq string literal cannot hold as they are. *)
Definition dquote : string := String (ascii_of_nat 34) EmptyString.
Definition newline : string := String (ascii_of_nat 10) EmptyString.
Definition tab : string := String (ascii_of_nat 9) EmptyString.

(** The long help of the build command, line by line. *)
Definition buildLong : string :=
  String.concat newline
    ["The operator-sdk build command compiles the code, builds the executables,";
     "and generates Kubernetes manifests.";
     "";
     String.append "<image> is the container image to be built, e.g. "
       (String.append dquote
          (String.append "quay.io/example/operator:v0.0.1"
             (String.append dquote ".")));
     "This image will be automatically set in the deployment manifests.";
     "";
     "<path to template> is the path to a an (optional) custom template for the deploy/operator.yaml file";
     "";
     "After build completes, the image would be built locally in docker. Then it needs to";
     "be pushed to remote registry.";
     "For example:";
     String.append tab "$ operator-sdk build quay.io/example/operator:v0.0.1";
     String.append tab "$ docker push quay.io/example/operator:v0.0.1";
     ""].

Section RootCmd.

Context {W BW Cfg : Type}.

(** What a command runs: here the type of [buildFunc]. *)
Definition Runner : Type := list string -> @Cmd.Prog BW unit.

(** [NewBuildCmd] *)
Definition NewBuildCmd (B : Cmd.BuildEnv BW Cfg) : Command Runner :=
  mkCommand "build <image> <path to template>"
    "Compiles code and builds artifacts" buildLong "" (Some (Cmd.buildFunc B)) [].

(** What the root command calls outside the sources: viper, whose setters
    change the world, [projutil.MustGetwd] (which may end the process), the
    version constant and the constructors of the other sub-commands. *)
Record RootEnv : Type := {
  projutil_MustGetwd : W -> Outcome string;
  viper_SetConfigFile : string -> W -> W;
  viper_AddConfigPath : string -> W -> W;
  viper_SetConfigName : string -> W -> W;
  viper_SetEnvPrefix : string -> W -> W;
  viper_AutomaticEnv : W -> W;
  viper_ReadInConfig : W -> option error * W;
  viper_ConfigFileUsed : W -> string;
  viper_BindPFlags : W -> option error * W;
  version_Version : string;
  NewNewCmd : Command Runner;
  NewAddCmd : Command Runner;
  NewGenerateCmd : Command Runner;
  NewUpCmd : Command Runner;
  NewCompletionCmd : Command Runner;
  NewTestCmd : Command Runner;
  NewScorecardCmd : Command Runner;
  NewPrintDepsCmd : Command Runner;
  NewMigrateCmd : Command Runner;
  NewRunCmd : Command Runner;
  NewOLMCatalogCmd : Command Runner
}.

(** The state a run threads: the world, the calls on viper so far (oldest
    first) and the lines logged. *)
Record RState : Type := mkRState {
  rworld : W;
  calls : list ViperCall;
  rlogs : list (Level * string)
}.

Definition RProg (A : Type) : Type := RState -> Outcome A * RState.

Definition rret {A} (a : A) : RProg A := fun s => (Returned a, s).

Definition rbind {A B} (m : RProg A) (k : A -> RProg B) : RProg B :=
  fun s =>
    match m s with
    | (Returned a, s') => k a s'
    | (Fatal, s') => (Fatal, s')
    end.

Notation "'let*' x := m 'in' k" := (rbind m (fun x => k))
  (at level 10, x name, m at level 100, k at level 200).

(** A viper setter. *)
Definition setter (c : ViperCall) (f : W -> W) : RProg unit :=
  fun s => (Returned tt, mkRState (f (rworld s)) (calls s ++ [c])%list (rlogs s)).

(** A viper call that returns an error or nil. *)
Definition attempt (c : ViperCall) (f : W -> option error * W)
  : RProg (option error) :=
  fun s =>
    let '(e, w) := f (rworld s) in
    (Returned e, mkRState w (calls s ++ [c])%list (rlogs s)).

Definition logLine (lvl : Level) (line : string) : RProg unit :=
  fun s => (Returned tt, mkRState (rworld s) (calls s) (rlogs s ++ [(lvl, line)])%list).

(** [log.Fatalf]: the line is logged and the process exits. *)
Definition Fatalf {A} (line : string) : RProg A :=
  fun s => (Fatal, mkRState (rworld s) (calls s) (rlogs s ++ [(FatalLevel, line)])%list).

Variable K : RootEnv.

Definition mustGetwd : RProg string :=
  fun s => (projutil_MustGetwd K (rworld s), s).

Definition configFileUsed : RProg string :=
  fun s => (Returned (viper_ConfigFileUsed K (rworld s)), s).

(** [initConfig]; [RootConf] is the package variable of that name. *)
Definition initConfig (RootConf : string) : RProg (option error) :=
  let* _ :=
    (if negb (String.eqb RootConf "") then
       (* Use config file from the flag. *)
       setter (SetConfigFile RootConf) (viper_SetConfigFile K RootConf)
     else
       let* wd := mustGetwd in
       let* _ := setter (AddConfigPath wd) (viper_AddConfigPath K wd) in
       setter (SetConfigName ".test-osdk-scorecard")
         (viper_SetConfigName K ".test-osdk-scorecard")) in
  let* _ := setter (SetEnvPrefix "osdk") (viper_SetEnvPrefix K "osdk") in
  let* _ := setter AutomaticEnv (viper_AutomaticEnv K) in
  let* err := attempt ReadInConfig (viper_ReadInConfig K) in
  let* _ :=
    match err with
    | None =>
        let* file := configFileUsed in
        logLine InfoLevel (String.append "Using config file: " file)
    | Some _ => logLine WarnLevel "Could not load config file; using flags"
    end in
  rret None.

(** [NewRootCmd]; the value [initConfig] returns is dropped. *)
Definition NewRootCmd (B : Cmd.BuildEnv BW Cfg) (RootConf : string)
  : RProg (Command Runner) :=
  let cmd :=
    mkCommand "operator-sdk" "An SDK for building operators with ease" ""
      (version_Version K) None [] in
  let* _ := initConfig RootConf in
  let cmd := AddCommand cmd (NewNewCmd K) in
  let cmd := AddCommand cmd (NewAddCmd K) in
  let cmd := AddCommand cmd (NewBuildCmd B) in
  let cmd := AddCommand cmd (NewGenerateCmd K) in
  let cmd := AddCommand cmd (NewUpCmd K) in
  let cmd := AddCommand cmd (NewCompletionCmd K) in
  let cmd := AddCommand cmd (NewTestCmd K) in
  let cmd := AddCommand cmd (NewScorecardCmd K) in
  let cmd := AddCommand cmd (NewPrintDepsCmd K) in
  let cmd := AddCommand cmd (NewMigrateCmd K) in
  let cmd := AddCommand cmd (NewRunCmd K) in
  let cmd := AddCommand cmd (NewOLMCatalogCmd K) in
  let* err := attempt BindPFlags (viper_BindPFlags K) in
  match err with
  | Some e => Fatalf (String.append "Failed to bind build flags to viper: " e)
  | None => rret cmd
  end.

End RootCmd.

Arguments RootEnv : clear implicits.
Arguments RState : clear implicits.

End Root.

(** ** More sample inputs *)

Module Cases.
Import Chartutil.

(** The calls that build the dependencies of a chart. *)
Definition build_event (ev : Event) : bool :=
  match ev with
  | EvBuild _ => true
  | _ => false
  end.

(** The calls that look a chart up in the index of a repository. *)
Definition lookup_event (ev : Event) : bool :=
  match ev with
  | EvFindChartInRepoURL _ _ _ => true
  | _ => false
  end.

(** A disk where [./not-a-chart] is a directory without a chart. *)
Definition plainDisk : Sample.Disk :=
  Sample.mkDisk ∅ ["./not-a-chart"] ∅ false false.

Definition plainOpts : CreateOptions :=
  mkCreateOptions Sample.noGVK "./not-a-chart" "" "" "v1" "opts.example.com".

(** A chart directory [./needy] that declares a dependency. *)
Definition needy : Chart :=
  mkChart "needy" [mkFile "templates/app.yaml" "kind: Deployment"] ["redis"].

Definition needyDisk : Sample.Disk :=
  Sample.mkDisk {["./needy" := needy]} [] ∅ false false.

Definition needyOpts : CreateOptions :=
  mkCreateOptions Sample.noGVK "./needy" "" "" "v1" "opts.example.com".

(** Options without a chart reference and without group, version or kind. *)
Definition bareOpts : CreateOptions :=
  mkCreateOptions Sample.noGVK "" "" "" "v1" "opts.example.com".

(** Where a call writes: the destination directory of a scaffold, a copy
    or a download. *)
Definition destination (ev : Event) : option string :=
  match ev with
  | EvCreate _ dir => Some dir
  | EvSaveDir _ dest => Some dest
  | EvDownloadTo _ _ dest => Some dest
  | _ => None
  end.

(** Options that name a chart of a custom repository. *)
Definition repoOpts : CreateOptions :=
  mkCreateOptions Sample.noGVK "web" "https://charts.example.com" "1.2.3" "v1"
    "opts.example.com".

(** The sample externals with a repository that cannot be reached. *)
Definition offline : Env Sample.Disk string :=
  {| ioutil_TempDir := Sample.tempDir;
     os_RemoveAll := Sample.removeAll;
     os_Stat := Sample.stat;
     loader_Load := Sample.load;
     chartutil_Create := Sample.create;
     chartutil_SaveDir := Sample.saveDir;
     repo_FindChartInRepoURL :=
       fun repoURL _ _ w =>
         (Err (String.append "looks like " (String.append repoURL " is not a valid chart repository")), w);
     downloader_DownloadTo := Sample.downloadTo;
     manager_Build := Sample.buildDeps;
     golang_NewResource := Sample.newResource;
     config_GetDomain := fun cfg => cfg;
     strings_ToLower := Sample.toLower;
     filepath_Join := Sample.join |}.

(** A sub-command without a function to run. *)
Definition leaf (name : string) : Root.Command (@Root.Runner unit) :=
  Root.mkCommand name "" "" "" None [].

(** Sample externals of the root command; the world says whether viper
    finds a configuration file it can read. *)
Definition viper : Root.RootEnv bool unit :=
  {| Root.projutil_MustGetwd := fun _ => Root.Returned "/home/dev/app-operator";
     Root.viper_SetConfigFile := fun _ w => w;
     Root.viper_AddConfigPath := fun _ w => w;
     Root.viper_SetConfigName := fun _ w => w;
     Root.viper_SetEnvPrefix := fun _ w => w;
     Root.viper_AutomaticEnv := fun w => w;
     Root.viper_ReadInConfig :=
       fun w : bool => (if w then None else Some "Config File Not Found", w);
     Root.viper_ConfigFileUsed := fun _ => "/etc/osdk.yaml";
     Root.viper_BindPFlags := fun w => (None, w);
     Root.version_Version := "v0.8.0";
     Root.NewNewCmd := leaf "new";
     Root.NewAddCmd := leaf "add";
     Root.NewGenerateCmd := leaf "generate";
     Root.NewUpCmd := leaf "up";
     Root.NewCompletionCmd := leaf "completion";
     Root.NewTestCmd := leaf "test";
     Root.NewScorecardCmd := leaf "scorecard";
     Root.NewPrintDepsCmd := leaf "print-deps";
     Root.NewMigrateCmd := leaf "migrate";
     Root.NewRunCmd := leaf "run";
     Root.NewOLMCatalogCmd := leaf "olm-catalog" |}.

Definition rstart (readable : bool) : Root.RState bool :=
  Root.mkRState readable [] [].

End Cases.

(** * Properties *)

(** ** Watch options *)

(** C10: [NewWatchOp] has one worker; [setDefaults] replaces the number of
    workers by 1 when it is 0 and leaves the operation alone otherwise, so a
    nonzero number set through [WithWatchOptions], a negative one as well,
    comes out of [setDefaults] as it was given. *)
Theorem NewWatchOp_one_worker_nonzero_kept (n : Z) (op : Sdk.WatchOp) :
  Sdk.NumWorkers Sdk.NewWatchOp = 1 /\
  (Sdk.NumWorkers op = 0 -> Sdk.setDefaults op = Sdk.mkWatchOp 1) /\
  (Sdk.NumWorkers op <> 0 -> Sdk.setDefaults op = op) /\
  (n <> 0 ->
   Sdk.NumWorkers
     (Sdk.setDefaults (Sdk.applyOpts [Sdk.WithWatchOptions n] op)) = n).
Proof.
  unfold Sdk.setDefaults.
  repeat split.
  - intros H0. rewrite H0. reflexivity.
  - intros Hne. destruct (Z.eqb_spec (Sdk.NumWorkers op) 0) as [H0 | _].
    + contradiction.
    + reflexivity.
  - intros Hne. simpl.
    destruct (Z.eqb_spec n 0) as [H0 | _]; [contradiction | reflexivity].
Qed.

(** A negative number of workers goes through unchanged. *)
Lemma NewWatchOp_one_worker_nonzero_kept_witness :
  Sdk.NumWorkers
    (Sdk.setDefaults
       (Sdk.applyOpts [Sdk.WithWatchOptions (-3)] Sdk.NewWatchOp)) = -3.
Proof.
  apply (NewWatchOp_one_worker_nonzero_kept (-3) Sdk.NewWatchOp).
  discriminate.
Defined.

(** ** The build sub-command *)

(** The guard of [buildFunc] holds whatever the number of arguments. *)
Lemma badArgCount_always (args : list string) : Cmd.badArgCount args = true.
Proof.
  unfold Cmd.badArgCount.
  destruct (Nat.eqb_spec (length args) 1) as [H1 | H1]; simpl.
  - rewrite H1. reflexivity.
  - reflexivity.
Qed.

(** C8: with exactly one argument the guard of [buildFunc] holds, and the
    run exits with [ExitBadArgs] in the state it started in: no script has
    been started and nothing was printed. *)
Theorem buildFunc_one_argument_rejected {W Cfg : Type}
  (E : Cmd.BuildEnv W Cfg) (args : list string) (s : Cmd.BState W)
  (Hone : length args = 1%nat) :
  Cmd.badArgCount args = true /\
  Cmd.buildFunc E args s =
    (Cmd.Exited Cmd.ExitBadArgs "build command needs at least 1 argument.", s).
Proof.
  split.
  - apply badArgCount_always.
  - unfold Cmd.buildFunc, Cmd.pbind.
    rewrite badArgCount_always. reflexivity.
Qed.

(** [operator-sdk build quay.io/example/operator:v0.0.1] is rejected. *)
Lemma buildFunc_one_argument_rejected_witness :
  Cmd.badArgCount ["quay.io/example/operator:v0.0.1"] = true /\
  Cmd.buildFunc SampleBuild.env ["quay.io/example/operator:v0.0.1"]
    SampleBuild.start =
    (Cmd.Exited Cmd.ExitBadArgs "build command needs at least 1 argument.",
     SampleBuild.start).
Proof.
  apply buildFunc_one_argument_rejected. reflexivity.
Defined.

(** Two arguments are rejected as well. *)
Example sample_build_two_arguments :
  Cmd.buildFunc SampleBuild.env
    ["quay.io/example/operator:v0.0.1"; "deploy/operator.tmpl"]
    SampleBuild.start =
    (Cmd.Exited Cmd.ExitBadArgs "build command needs at least 1 argument.",
     SampleBuild.start).
Proof. reflexivity. Qed.

(** ** The chart pipeline *)

Import Chartutil Contract Stages.

Local Open Scope list_scope.

(** *** Tactics for runs *)

(** [x] holds no case analysis of its own. *)
Ltac atomic x :=
  lazymatch x with
  | context [match _ with _ => _ end] => fail
  | _ => idtac
  end.

(** One case analysis, on a scrutinee that holds no other. *)
Ltac step :=
  match goal with
  | |- context [match ?x with _ => _ end] =>
      atomic x; destruct x eqn:?; simpl in *; simplify_eq
  end.

(** Brings a trace to the form [trace s ++ events]. *)
Ltac flat := simpl; repeat rewrite <- app_assoc; simpl.

(** Unfolds the pipeline down to the library calls. *)
Ltac unfold_run :=
  unfold CreateChart, defer, removeTempDir, createIn, resolveAndReload,
    fetchChartDependencies, fetchChart, scaffoldChart, createChartFromRemote,
    createChartFromDisk, bind, call, read, fmt_Println, log_Errorf, ret in *;
  simpl in *.

(** Picks the stage whose context an error carries. *)
Ltac failed_stage :=
  right;
  first [ exists Scaffold; eexists; reflexivity
        | exists Fetch; eexists; reflexivity
        | exists ResolveDependencies; eexists; reflexivity
        | exists Reload; eexists; reflexivity ].

(** *** The sample disk *)

(** The sample disk satisfies the contracts: a removal that returns no
    error leaves nothing at the path or below it. *)
Lemma Sample_RemoveAllLaw : RemoveAllLaw Sample.env.
Proof.
  intros path w w'. unfold exists_on_disk. simpl.
  unfold Sample.removeAll, Sample.stat.
  destruct (Sample.busy w); intros Hrm; simplify_eq. simpl.
  assert (Hself : Sample.under path path = true).
  { unfold Sample.under. rewrite String.eqb_refl. reflexivity. }
  rewrite map_lookup_filter_None_2.
  - destruct (existsb (String.eqb path) _) eqn:Hin; [ | discriminate].
    apply existsb_exists in Hin. destruct Hin as [p [Hin Heq]].
    apply String.eqb_eq in Heq. subst p.
    apply List.filter_In in Hin. destruct Hin as [_ Hout].
    rewrite Hself in Hout. discriminate Hout.
  - right. intros c _. simpl. rewrite Hself. discriminate.
Qed.

(** The sample resource copies group, version and kind. *)
Lemma Sample_GolangLaw : GolangLaw Sample.env.
Proof. intros ro cfg. repeat split. Qed.

(** On the sample disk a chart directory holds what was last put there, and
    the build of dependencies changes nothing. *)
Lemma Sample_HelmLaws : HelmLaws Sample.env.
Proof.
  split; simpl.
  - intros name dir w chartPath w' Hcreate path c Hpath Hload.
    unfold Sample.create in Hcreate. simplify_eq.
    assert (path = Sample.join dir name) as -> by (destruct Hpath; assumption).
    unfold Sample.load, Sample.put in Hload. simpl in Hload.
    rewrite lookup_insert_eq in Hload. simplify_eq. split; reflexivity.
  - intros c dest w w' Hsave c' Hload.
    unfold Sample.saveDir in Hsave. simplify_eq.
    unfold Sample.load, Sample.put in Hload. simpl in Hload.
    rewrite lookup_insert_eq in Hload. simplify_eq. repeat split.
  - intros chartPath w out w' Hbuild.
    unfold Sample.buildDeps in Hbuild. unfold Sample.load.
    destruct (Sample.charts w !! chartPath) as [c | ] eqn:Hc; [ | discriminate].
    destruct (Dependencies c); simplify_eq.
    exists c. split; [reflexivity | ].
    intros _ c' Hc'. rewrite Hc in Hc'. simplify_eq. split; reflexivity.
Qed.

(** Camel case of two names. *)
Example sample_ToCamel :
  Strcase.ToCamel "my-app" = "MyApp" /\
  Strcase.ToCamel "hello_world.v2" = "HelloWorldV2".
Proof. split; reflexivity. Qed.

(** A chart of the repository: downloaded, loaded, copied, built, loaded
    again; the workspace is gone afterwards. *)
Example sample_remote_run :
  let run :=
    CreateChart Sample.env "cfg.example.com" Sample.remoteOpts
      (Sample.start (Sample.disk false false)) in
  fst run =
    (Some (mkResource "charts" "cfg.example.com" "v1alpha1" "Web" "webs" ""),
     Some Sample.web, None) /\
  trace (snd run) =
    [EvTempDir "" "osdk-helm-chart";
     EvStat "stable/web";
     EvDownloadTo "stable/web" "" "/tmp/osdk-helm-chart042";
     EvLoad "/tmp/osdk-helm-chart042/web.tgz";
     EvSaveDir "web" "/tmp/osdk-helm-chart042";
     EvBuild "/tmp/osdk-helm-chart042/web";
     EvLoad "/tmp/osdk-helm-chart042/web";
     EvRemoveAll "/tmp/osdk-helm-chart042"] /\
  Sample.stat Sample.workspace (world (snd run)) <> None.
Proof. vm_compute. repeat split. discriminate. Qed.

(** The local chart on a disk whose directories are busy: the run succeeds,
    the failed removal is logged and the workspace is still there. *)
Example sample_busy_run :
  let run :=
    CreateChart Sample.env "cfg.example.com" Sample.localOpts
      (Sample.start (Sample.disk false true)) in
  fst run =
    (Some (mkResource "charts" "cfg.example.com" "v1alpha1" "MyApp" "myapps" ""),
     Some Sample.myApp, None) /\
  logs (snd run) =
    ["Failed to remove temporary chart directory /tmp/osdk-helm-chart042: unlinkat /tmp/osdk-helm-chart042: device or resource busy"] /\
  Sample.stat Sample.workspace (world (snd run)) = None.
Proof. vm_compute. repeat split. Qed.

(** *** Allocation of the workspace *)

(** [len(s) == 0] says that [s] is the empty string. *)
Lemma len0_spec (s : string) : len0 s = true <-> s = "".
Proof.
  unfold len0. destruct s; simpl; split; intros H;
    try reflexivity; discriminate H.
Qed.

(** [CreateChart] when the workspace cannot be allocated. *)
Lemma CreateChart_not_allocated {W Cfg : Type} (E : Env W Cfg)
  (cfg : Cfg) (opts : CreateOptions) (s : State W) (err : error) (w1 : W) :
  ioutil_TempDir E "" "osdk-helm-chart" (world s) = (Err err, w1) ->
  CreateChart E cfg opts s =
    ((None, None, Some err),
     mkState w1 (trace s ++ [EvTempDir "" "osdk-helm-chart"]) (stdout s) (logs s)).
Proof.
  intros Halloc. unfold CreateChart, bind, call, ret.
  rewrite Halloc. reflexivity.
Qed.

(** [CreateChart] once the workspace is allocated: the body, then the
    removal, and the values of the body. *)
Lemma CreateChart_allocated {W Cfg : Type} (E : Env W Cfg)
  (cfg : Cfg) (opts : CreateOptions) (s : State W) (tmpDir : string) (w1 : W) :
  ioutil_TempDir E "" "osdk-helm-chart" (world s) = (Ok tmpDir, w1) ->
  let body :=
    createIn E cfg opts tmpDir
      (mkState w1 (trace s ++ [EvTempDir "" "osdk-helm-chart"]) (stdout s) (logs s)) in
  let removal := os_RemoveAll E tmpDir (world (snd body)) in
  CreateChart E cfg opts s =
    (fst body,
     mkState (snd removal) (trace (snd body) ++ [EvRemoveAll tmpDir])
       (stdout (snd body))
       (match fst removal with
        | Some err => logs (snd body) ++ [removal_failure tmpDir err]
        | None => logs (snd body)
        end)).
Proof.
  intros Halloc body removal. subst removal body.
  unfold CreateChart, defer, removeTempDir, bind, call, log_Errorf, ret.
  rewrite Halloc.
  destruct (createIn E cfg opts tmpDir _) as [res s2]. simpl.
  destruct (os_RemoveAll E tmpDir (world s2)) as [[err | ] w3]; reflexivity.
Qed.

(** *** Output of the dependency build *)

(** C7: [fetchChartDependencies] returns the error of [Manager.Build]; what
    the manager wrote is printed to standard output when that error is not
    nil, and standard output is left as it was when it is nil. *)
Theorem fetchChartDependencies_prints_on_failure_only {W Cfg : Type}
  (E : Env W Cfg) (chartPath : string) (s : State W) :
  let built := manager_Build E chartPath (world s) in
  let out := fst (fst built) in
  let err := snd (fst built) in
  fetchChartDependencies E chartPath s =
    (err,
     mkState (snd built) (trace s ++ [EvBuild chartPath])
       (match err with
        | Some _ => stdout s ++ [out]
        | None => stdout s
        end)
       (logs s)).
Proof.
  unfold fetchChartDependencies, bind, call, fmt_Println, ret.
  destruct (manager_Build E chartPath (world s)) as [[out [err | ]] w];
    reflexivity.
Qed.

(** *** The resource *)

(** The resource [NewResource] builds has no path and the domain of the
    project configuration. *)
Lemma NewResource_path_domain {W Cfg : Type} (E : Env W Cfg)
  (opts : CreateOptions) (cfg : Cfg) :
  r_Path (NewResource E opts cfg) = "" /\
  r_Domain (NewResource E opts cfg) = config_GetDomain E cfg.
Proof. split; reflexivity. Qed.

(** A resource returned by [CreateChart] was built by [NewResource]. *)
Lemma CreateChart_resource_origin {W Cfg : Type} (E : Env W Cfg)
  (cfg : Cfg) (opts : CreateOptions) (s s' : State W)
  (r : Resource) (c : option Chart) (err : option error) :
  CreateChart E cfg opts s = ((Some r, c, err), s') ->
  exists opts', r = NewResource E opts' cfg.
Proof.
  unfold_run. revert s'.
  repeat step; intros s' Hrun; simplify_eq; eexists; reflexivity.
Qed.

(** C9: a resource returned by [CreateChart] has an empty path, and its
    domain is the one of the project configuration, whatever the domain of
    the options; so has every resource [NewResource] builds. *)
Theorem CreateChart_resource_pathless {W Cfg : Type} (E : Env W Cfg)
  (cfg : Cfg) (opts : CreateOptions) (s s' : State W)
  (r : Resource) (c : option Chart) (err : option error)
  (Hrun : CreateChart E cfg opts s = ((Some r, c, err), s')) :
  (r_Path r = "" /\ r_Domain r = config_GetDomain E cfg) /\
  (forall o,
     r_Path (NewResource E o cfg) = "" /\
     r_Domain (NewResource E o cfg) = config_GetDomain E cfg).
Proof.
  split.
  - destruct (CreateChart_resource_origin E cfg opts s s' r c err Hrun)
      as [opts' ->].
    apply NewResource_path_domain.
  - intros o. apply NewResource_path_domain.
Qed.

(** The sample run on the local chart: the options carry the domain
    [opts.example.com], the configuration [cfg.example.com], and the Go
    resource has a package path. *)
Lemma CreateChart_resource_pathless_witness :
  exists r,
    fst (fst (fst (CreateChart Sample.env "cfg.example.com" Sample.localOpts
                     (Sample.start (Sample.disk false false))))) = Some r /\
    r_Path r = "" /\ r_Domain r = "cfg.example.com".
Proof.
  eexists. split; [vm_compute; reflexivity | ].
  eapply proj1.
  eapply (CreateChart_resource_pathless Sample.env "cfg.example.com"
            Sample.localOpts (Sample.start (Sample.disk false false))).
  vm_compute. reflexivity.
Defined.

(** The resource of a successful [fetchChart] is built from the options
    with the defaulted group, version and kind. *)
Lemma fetchChart_resource {W Cfg : Type} (E : Env W Cfg)
  (cfg : Cfg) (destDir : string) (opts : CreateOptions) (s s' : State W)
  (r : Resource) (c : Chart) :
  fetchChart E cfg destDir opts s = (Ok (r, c), s') ->
  r = NewResource E (with_GVK opts (derivedGVK (opts_GVK opts) c)) cfg.
Proof.
  unfold fetchChart, bind, read, ret. simpl.
  match goal with
  | |- context [let '(_, _) := ?run in _] =>
      destruct run as [[chart | err] s2]
  end; intros Hrun; simplify_eq.
  unfold derivedGVK.
  destruct (len0 (gvk_Group (opts_GVK opts))); simpl;
    destruct (len0 (gvk_Version (opts_GVK opts))); simpl;
    destruct (len0 (gvk_Kind (opts_GVK opts))); reflexivity.
Qed.

(** C4: after a chart has been acquired by [fetchChart], the resource is
    built from the options in which an empty group has become [charts], an
    empty version [v1alpha1] and an empty kind the camel case of the chart's
    name, and every given field is as it was; the resource has that group,
    version and kind.  For a chart named [my-app] and no group, version or
    kind, they are [charts], [v1alpha1] and [MyApp]. *)
Theorem fetchChart_defaults_identity {W Cfg : Type} (E : Env W Cfg)
  (cfg : Cfg) (destDir : string) (opts : CreateOptions) (s s' : State W)
  (r : Resource) (c : Chart)
  (Hlib : GolangLaw E)
  (Hrun : fetchChart E cfg destDir opts s = (Ok (r, c), s')) :
  let given := opts_GVK opts in
  r = NewResource E (with_GVK opts (derivedGVK given c)) cfg /\
  r_Group r = (if len0 (gvk_Group given) then "charts" else gvk_Group given) /\
  r_Version r =
    (if len0 (gvk_Version given) then "v1alpha1" else gvk_Version given) /\
  r_Kind r =
    (if len0 (gvk_Kind given) then Strcase.ToCamel (Name c) else gvk_Kind given) /\
  (Name c = "my-app" -> given = mkGVK "" "" "" ->
   r_Group r = "charts" /\ r_Version r = "v1alpha1" /\ r_Kind r = "MyApp").
Proof.
  intros given.
  pose proof (fetchChart_resource E cfg destDir opts s s' r c Hrun) as Hr.
  fold given in Hr.
  assert (Hgvk : r_Group r = gvk_Group (derivedGVK given c) /\
                 r_Version r = gvk_Version (derivedGVK given c) /\
                 r_Kind r = gvk_Kind (derivedGVK given c)).
  { rewrite Hr. unfold NewResource. simpl.
    match goal with
    | |- context [golang_NewResource E ?ro cfg] =>
        destruct (Hlib ro cfg) as [Hg [Hv Hk]]
    end.
    rewrite Hg, Hv, Hk. simpl. repeat split. }
  destruct Hgvk as [Hg [Hv Hk]].
  split; [exact Hr | ].
  split; [exact Hg | ].
  split; [exact Hv | ].
  split; [exact Hk | ].
  intros Hname Hnone.
  rewrite Hg, Hv, Hk. unfold derivedGVK. rewrite Hnone, Hname.
  repeat split.
Qed.

(** The sample run on the local chart [my-app], with no group, version or
    kind in the options. *)
Lemma fetchChart_defaults_identity_witness :
  exists r,
    fst (fetchChart Sample.env "cfg.example.com" Sample.workspace
           Sample.localOpts (Sample.start (Sample.disk false false))) =
      Ok (r, Sample.myApp) /\
    r_Group r = "charts" /\ r_Version r = "v1alpha1" /\ r_Kind r = "MyApp".
Proof.
  eexists. split; [vm_compute; reflexivity | ].
  eapply (fetchChart_defaults_identity Sample.env "cfg.example.com"
            Sample.workspace Sample.localOpts
            (Sample.start (Sample.disk false false))).
  - intros ro cfg. repeat split.
  - vm_compute. reflexivity.
  - reflexivity.
  - reflexivity.
Defined.

(** *** Local path or repository *)

(** When the chart reference exists on disk, [fetchChart] does not look at
    the repository URL or the chart version. *)
Lemma fetchChart_source_irrelevant {W Cfg : Type} (E : Env W Cfg)
  (cfg : Cfg) (destDir : string) (opts : CreateOptions) (s : State W)
  (repoURL version : string) :
  exists_on_disk E (opts_Chart opts) (world s) ->
  fetchChart E cfg destDir (with_source opts repoURL version) s =
  fetchChart E cfg destDir opts s.
Proof.
  unfold exists_on_disk. intros Hstat.
  unfold fetchChart, bind, read. simpl. rewrite Hstat. reflexivity.
Qed.

(** The calls of [fetchChart]: the existence check, then the load from the
    given path and no call to a repository when the path exists, and a call
    to a repository when it does not. *)
Lemma fetchChart_trace {W Cfg : Type} (E : Env W Cfg)
  (cfg : Cfg) (destDir : string) (opts : CreateOptions) (s : State W) :
  exists evs,
    trace (snd (fetchChart E cfg destDir opts s)) =
      trace s ++ EvStat (opts_Chart opts) :: evs /\
    match os_Stat E (opts_Chart opts) (world s) with
    | None =>
        hd_error evs = Some (EvLoad (opts_Chart opts)) /\
        existsb remote_event evs = false
    | Some _ => existsb remote_event evs = true
    end.
Proof.
  unfold_run.
  repeat step; flat; eexists; (split; [reflexivity | ]); simpl; auto.
Qed.

(** The calls of the body of [CreateChart] for a chart reference that is
    not empty: those of [fetchChart], then calls that reach no repository. *)
Lemma createIn_fetch_trace {W Cfg : Type} (E : Env W Cfg)
  (cfg : Cfg) (opts : CreateOptions) (tmpDir : string) (s : State W) :
  len0 (opts_Chart opts) = false ->
  exists evs,
    trace (snd (createIn E cfg opts tmpDir s)) =
      trace s ++ EvStat (opts_Chart opts) :: evs /\
    match os_Stat E (opts_Chart opts) (world s) with
    | None =>
        hd_error evs = Some (EvLoad (opts_Chart opts)) /\
        existsb remote_event evs = false
    | Some _ => existsb remote_event evs = true
    end.
Proof.
  intros Hlen. unfold_run. rewrite Hlen. simpl.
  repeat step; flat; eexists; (split; [reflexivity | ]); simpl; auto.
Qed.

(** C2: [fetchChart] first checks whether the chart reference exists on
    disk.  When it does, the next call loads the chart from that path, no
    call reaches a repository, and the run is the same whatever repository
    URL and version the options carry; a call reaches a repository exactly
    when the existence check fails.  The same holds of a whole run of
    [CreateChart] on a chart reference that is not empty, for the disk as it
    is once the workspace is allocated. *)
Theorem fetchChart_local_path_wins {W Cfg : Type} (E : Env W Cfg)
  (cfg : Cfg) (opts : CreateOptions) (s : State W) :
  (forall destDir,
     let run := fetchChart E cfg destDir opts s in
     exists evs,
       trace (snd run) = trace s ++ EvStat (opts_Chart opts) :: evs /\
       (exists_on_disk E (opts_Chart opts) (world s) ->
        hd_error evs = Some (EvLoad (opts_Chart opts)) /\
        existsb remote_event evs = false /\
        forall repoURL version,
          fetchChart E cfg destDir (with_source opts repoURL version) s = run) /\
       (existsb remote_event evs = true <->
        ~ exists_on_disk E (opts_Chart opts) (world s))) /\
  (forall tmpDir w1,
     opts_Chart opts <> "" ->
     ioutil_TempDir E "" "osdk-helm-chart" (world s) = (Ok tmpDir, w1) ->
     exists evs,
       trace (snd (CreateChart E cfg opts s)) =
         trace s ++
         EvTempDir "" "osdk-helm-chart" :: EvStat (opts_Chart opts) :: evs /\
       (exists_on_disk E (opts_Chart opts) w1 ->
        hd_error evs = Some (EvLoad (opts_Chart opts)) /\
        existsb remote_event evs = false) /\
       (existsb remote_event evs = true <->
        ~ exists_on_disk E (opts_Chart opts) w1)).
Proof.
  split.
  - intros destDir run. subst run.
    destruct (fetchChart_trace E cfg destDir opts s) as [evs [Htrace Hevs]].
    exists evs. split; [exact Htrace | ].
    unfold exists_on_disk.
    destruct (os_Stat E (opts_Chart opts) (world s)) as [err | ] eqn:Hstat.
    + split.
      * intros Hex. discriminate Hex.
      * split; [intros _ Hex; discriminate Hex | intros _; exact Hevs].
    + destruct Hevs as [Hhd Hnone]. split.
      * intros _. repeat split; [exact Hhd | exact Hnone | ].
        intros repoURL version.
        apply fetchChart_source_irrelevant. exact Hstat.
      * rewrite Hnone. split; [discriminate | intros Hno; now elim Hno].
  - intros tmpDir w1 Href Halloc.
    assert (Hlen : len0 (opts_Chart opts) = false).
    { unfold len0. destruct (opts_Chart opts); [contradiction | reflexivity]. }
    rewrite (CreateChart_allocated E cfg opts s tmpDir w1 Halloc). simpl.
    destruct (createIn_fetch_trace E cfg opts tmpDir
                (mkState w1 (trace s ++ [EvTempDir "" "osdk-helm-chart"])
                   (stdout s) (logs s)) Hlen) as [evs [Htrace Hevs]].
    simpl in Htrace, Hevs.
    exists (evs ++ [EvRemoveAll tmpDir]).
    rewrite Htrace. repeat rewrite <- app_assoc. simpl.
    split; [reflexivity | ].
    unfold exists_on_disk. rewrite existsb_app. simpl. rewrite orb_false_r.
    destruct (os_Stat E (opts_Chart opts) w1) as [err | ] eqn:Hstat.
    + split.
      * intros Hex. discriminate Hex.
      * split; [intros _ Hex; discriminate Hex | intros _; exact Hevs].
    + destruct Hevs as [Hhd Hnone]. split.
      * intros _. split; [ | exact Hnone].
        destruct evs as [ | ev rest]; [discriminate Hhd | exact Hhd].
      * rewrite Hnone. split; [discriminate | intros Hno; now elim Hno].
Qed.

(** The sample run on the local chart, whose options carry a repository
    URL: the chart is loaded from the path and no repository is called. *)
Lemma fetchChart_local_path_wins_witness :
  exists evs,
    trace (snd (CreateChart Sample.env "cfg.example.com" Sample.localOpts
                  (Sample.start (Sample.disk false false)))) =
      [EvTempDir "" "osdk-helm-chart"; EvStat "./local-chart"] ++ evs /\
    hd_error evs = Some (EvLoad "./local-chart") /\
    existsb remote_event evs = false.
Proof.
  epose proof (proj2 (fetchChart_local_path_wins Sample.env "cfg.example.com"
                        Sample.localOpts
                        (Sample.start (Sample.disk false false)))
                 Sample.workspace _ _ eq_refl) as H.
  destruct H as [evs [Htrace [Hlocal _]]].
  exists evs. split; [exact Htrace | ].
  apply Hlocal. vm_compute. reflexivity.
  Unshelve. discriminate.
Defined.

(** *** Removal of the workspace *)

(** The body of [CreateChart] makes no call on the workspace directory
    itself and logs nothing. *)
Lemma createIn_trace {W Cfg : Type} (E : Env W Cfg)
  (cfg : Cfg) (opts : CreateOptions) (tmpDir : string) (s : State W) :
  exists evs,
    trace (snd (createIn E cfg opts tmpDir s)) = trace s ++ evs /\
    List.filter workspace_event evs = [] /\
    logs (snd (createIn E cfg opts tmpDir s)) = logs s.
Proof.
  unfold_run.
  repeat step; flat; eexists; (split; [reflexivity | ]); split; reflexivity.
Qed.

(** The body of [CreateChart] does not call [os.RemoveAll]. *)
Lemma createIn_with_RemoveAll {W Cfg : Type} (E : Env W Cfg)
  (f : string -> W -> option error * W)
  (cfg : Cfg) (opts : CreateOptions) (tmpDir : string) (s : State W) :
  createIn (with_RemoveAll E f) cfg opts tmpDir s = createIn E cfg opts tmpDir s.
Proof. reflexivity. Qed.

(** C1 (as amended): once the workspace is allocated, [CreateChart] calls
    [os.RemoveAll] on it exactly once, as its last call, whatever the body
    did; the directory is gone when that call returns no error; when it
    returns an error, one line is logged; and the values returned are those
    of the body, whatever [os.RemoveAll] does. *)
Theorem CreateChart_removes_workspace {W Cfg : Type} (E : Env W Cfg)
  (cfg : Cfg) (opts : CreateOptions) (s : State W) (tmpDir : string) (w1 : W)
  (Halloc : ioutil_TempDir E "" "osdk-helm-chart" (world s) = (Ok tmpDir, w1)) :
  let run := CreateChart E cfg opts s in
  let body :=
    createIn E cfg opts tmpDir
      (mkState w1 (trace s ++ [EvTempDir "" "osdk-helm-chart"]) (stdout s) (logs s)) in
  let removal := os_RemoveAll E tmpDir (world (snd body)) in
  (exists evs,
     trace (snd run) = trace s ++ EvTempDir "" "osdk-helm-chart" :: evs /\
     last evs = Some (EvRemoveAll tmpDir) /\
     List.filter workspace_event evs = [EvRemoveAll tmpDir]) /\
  world (snd run) = snd removal /\
  (RemoveAllLaw E -> fst removal = None ->
   ~ exists_on_disk E tmpDir (world (snd run))) /\
  logs (snd run) =
    match fst removal with
    | Some err => logs s ++ [removal_failure tmpDir err]
    | None => logs s
    end /\
  fst run = fst body /\
  (forall f, fst (CreateChart (with_RemoveAll E f) cfg opts s) = fst run).
Proof.
  intros run body removal.
  pose proof (CreateChart_allocated E cfg opts s tmpDir w1 Halloc) as Hrun.
  simpl in Hrun. fold body in Hrun. fold removal in Hrun. fold run in Hrun.
  destruct (createIn_trace E cfg opts tmpDir
              (mkState w1 (trace s ++ [EvTempDir "" "osdk-helm-chart"])
                 (stdout s) (logs s))) as [evs [Htrace [Hnone Hlogs]]].
  fold body in Htrace, Hlogs. simpl in Htrace, Hlogs.
  rewrite Hrun. simpl.
  split; [ | split; [reflexivity | split; [ | split; [ | split ] ] ] ].
  - exists (evs ++ [EvRemoveAll tmpDir]).
    rewrite Htrace. repeat rewrite <- app_assoc. simpl.
    split; [reflexivity | ]. split.
    + apply last_snoc.
    + rewrite List.filter_app, Hnone. reflexivity.
  - intros Hlaw Hgone.
    apply (Hlaw tmpDir (world (snd body))).
    unfold removal in *.
    destruct (os_RemoveAll E tmpDir (world (snd body))) as [rm w3].
    simpl in Hgone. subst rm. reflexivity.
  - rewrite Hlogs. reflexivity.
  - reflexivity.
  - intros f.
    assert (Hallocf :
      ioutil_TempDir (with_RemoveAll E f) "" "osdk-helm-chart" (world s)
      = (Ok tmpDir, w1)) by exact Halloc.
    rewrite (CreateChart_allocated (with_RemoveAll E f) cfg opts s tmpDir w1
               Hallocf).
    reflexivity.
Qed.

(** The sample run on the local chart: the workspace is removed. *)
Lemma CreateChart_removes_workspace_witness :
  ~ exists_on_disk Sample.env Sample.workspace
      (world (snd (CreateChart Sample.env "cfg.example.com" Sample.localOpts
                     (Sample.start (Sample.disk false false))))) /\
  logs (snd (CreateChart Sample.env "cfg.example.com" Sample.localOpts
               (Sample.start (Sample.disk false false)))) = [].
Proof.
  epose proof (CreateChart_removes_workspace Sample.env "cfg.example.com"
                 Sample.localOpts (Sample.start (Sample.disk false false))
                 Sample.workspace _ eq_refl) as H.
  destruct H as (_ & _ & Hgone & Hlogs & _).
  split.
  - apply Hgone; [apply Sample_RemoveAllLaw | vm_compute; reflexivity].
  - rewrite Hlogs. vm_compute. reflexivity.
Defined.

(** C1, as stated, fails: on a disk whose directories are busy the removal
    fails, one line is logged, and the workspace is still there when
    [CreateChart] returns the resource and the chart. *)
Lemma CreateChart_busy_workspace_stays :
  ~ workspace_gone_after Sample.env "cfg.example.com" Sample.localOpts
      (Sample.start (Sample.disk false true)).
Proof.
  unfold workspace_gone_after. intros Hgone.
  apply (Hgone Sample.workspace
           (Sample.mkDisk {["./local-chart" := Sample.myApp]} [Sample.workspace]
              {["stable/web" := Sample.web]} false true)).
  - reflexivity.
  - vm_compute. reflexivity.
Qed.

(** *** All or nothing *)

(** The body of [CreateChart] returns a resource and a chart, or the error
    of a stage under its context.  When it returns a chart, its last two
    calls were the build of the dependencies and the load of the chart
    directory, and nothing was printed. *)
Lemma createIn_all_or_nothing {W Cfg : Type} (E : Env W Cfg)
  (cfg : Cfg) (opts : CreateOptions) (tmpDir : string) (s : State W) :
  let body := createIn E cfg opts tmpDir s in
  all_or_nothing (fst body) /\
  (forall r c,
     fst body = (Some r, Some c, None) ->
     exists evs chartPath,
       trace (snd body) = trace s ++ evs /\
       firstn 2 (rev evs) = [EvLoad chartPath; EvBuild chartPath] /\
       stdout (snd body) = stdout s).
Proof.
  unfold all_or_nothing. unfold_run.
  repeat step; flat;
    (split;
     [ first [ left; do 2 eexists; reflexivity | failed_stage ]
     | intros r' c' Hres; simplify_eq;
       do 2 eexists; (split; [reflexivity | ]); split; reflexivity ]).
Qed.




(** *** The default chart *)

(** With an empty chart reference the body of [CreateChart] starts with
    [chartutil.Create] and makes no call of the fetch path. *)
Lemma createIn_scaffold_trace {W Cfg : Type} (E : Env W Cfg)
  (cfg : Cfg) (opts : CreateOptions) (tmpDir : string) (s : State W) :
  opts_Chart opts = "" ->
  exists evs,
    trace (snd (createIn E cfg opts tmpDir s)) =
      trace s ++
      EvCreate (strings_ToLower E (gvk_Kind (opts_GVK opts))) tmpDir :: evs /\
    existsb fetch_event evs = false.
Proof.
  intros Hempty. unfold_run. rewrite Hempty. simpl.
  repeat step; flat; eexists; (split; [reflexivity | ]); reflexivity.
Qed.

(** Under Helm's contract, the chart the body returns for an empty chart
    reference is named after the lower-cased kind. *)
Lemma createIn_scaffold_name {W Cfg : Type} (E : Env W Cfg)
  (Hhelm : HelmLaws E)
  (cfg : Cfg) (opts : CreateOptions) (tmpDir : string) (s : State W)
  (r : Resource) (c : Chart) :
  opts_Chart opts = "" ->
  fst (createIn E cfg opts tmpDir s) = (Some r, Some c, None) ->
  Name c = strings_ToLower E (gvk_Kind (opts_GVK opts)).
Proof.
  intros Hempty. unfold_run. rewrite Hempty. simpl.
  set (name := strings_ToLower E (gvk_Kind (opts_GVK opts))).
  destruct (chartutil_Create E name tmpDir (world s))
    as [[chartPath | err] w2] eqn:Hcreate; simpl; [ | discriminate].
  destruct (loader_Load E chartPath w2) as [c0 | err] eqn:Hload0; simpl;
    [ | discriminate].
  destruct (create_named E Hhelm name tmpDir (world s) chartPath w2 Hcreate
              chartPath c0 (or_introl eq_refl) Hload0) as [Hname0 _].
  rewrite Hname0.
  destruct (manager_Build E (filepath_Join E tmpDir name) w2)
    as [[out [err | ]] w3] eqn:Hbuild; simpl; [discriminate | ].
  destruct (loader_Load E (filepath_Join E tmpDir name) w3)
    as [c1 | err] eqn:Hload1; simpl; [ | discriminate].
  intros Hres. injection Hres as _ Hc. subst c1.
  destruct (build_nodeps E Hhelm _ _ _ _ Hbuild) as [c2 [Hload2 Hkept]].
  destruct (create_named E Hhelm name tmpDir (world s) chartPath w2 Hcreate
              (filepath_Join E tmpDir name) c2 (or_intror eq_refl) Hload2)
    as [Hname2 Hdeps2].
  destruct (Hkept Hdeps2 c Hload1) as [Hname _].
  rewrite Hname. exact Hname2.
Qed.

(** With an empty chart reference [CreateChart] does not look at the
    repository URL or the chart version. *)
Lemma CreateChart_scaffold_source_irrelevant {W Cfg : Type} (E : Env W Cfg)
  (cfg : Cfg) (opts : CreateOptions) (s : State W) (repoURL version : string) :
  opts_Chart opts = "" ->
  CreateChart E cfg (with_source opts repoURL version) s =
  CreateChart E cfg opts s.
Proof.
  intros Hempty.
  unfold CreateChart, defer, createIn, bind. simpl.
  rewrite Hempty. reflexivity.
Qed.

(** C3: with an empty chart reference, [CreateChart] takes the scaffold
    path: after the workspace is allocated its first call is
    [chartutil.Create] with the lower-cased kind, and no call of the fetch
    path is made; under Helm's contract a chart it returns is named after
    the lower-cased kind; and two runs whose options differ only in the
    repository URL and the chart version are the same run. *)
Theorem CreateChart_empty_reference_scaffolds {W Cfg : Type} (E : Env W Cfg)
  (cfg : Cfg) (opts : CreateOptions) (s : State W)
  (Hempty : opts_Chart opts = "") :
  let run := CreateChart E cfg opts s in
  let name := strings_ToLower E (gvk_Kind (opts_GVK opts)) in
  (exists evs,
     trace (snd run) = trace s ++ EvTempDir "" "osdk-helm-chart" :: evs /\
     existsb fetch_event evs = false /\
     match fst (ioutil_TempDir E "" "osdk-helm-chart" (world s)) with
     | Ok tmpDir => hd_error evs = Some (EvCreate name tmpDir)
     | Err _ => evs = []
     end) /\
  (HelmLaws E ->
   forall r c, fst run = (Some r, Some c, None) -> Name c = name) /\
  (forall repoURL version,
     CreateChart E cfg (with_source opts repoURL version) s = run).
Proof.
  intros run name. subst run.
  split; [ | split].
  - destruct (ioutil_TempDir E "" "osdk-helm-chart" (world s))
      as [[tmpDir | err] w1] eqn:Halloc; simpl.
    + rewrite (CreateChart_allocated E cfg opts s tmpDir w1 Halloc). simpl.
      destruct (createIn_scaffold_trace E cfg opts tmpDir
                  (mkState w1 (trace s ++ [EvTempDir "" "osdk-helm-chart"])
                     (stdout s) (logs s)) Hempty) as [evs [Htrace Hnone]].
      simpl in Htrace. fold name in Htrace.
      exists (EvCreate name tmpDir :: evs ++ [EvRemoveAll tmpDir]).
      rewrite Htrace. repeat rewrite <- app_assoc. simpl.
      split; [reflexivity | ]. split; [ | reflexivity].
      rewrite existsb_app, Hnone. reflexivity.
    + rewrite (CreateChart_not_allocated E cfg opts s err w1 Halloc). simpl.
      exists []. repeat split.
  - intros Hhelm r c Hres.
    destruct (ioutil_TempDir E "" "osdk-helm-chart" (world s))
      as [[tmpDir | err] w1] eqn:Halloc.
    + rewrite (CreateChart_allocated E cfg opts s tmpDir w1 Halloc) in Hres.
      simpl in Hres.
      exact (createIn_scaffold_name E Hhelm cfg opts tmpDir _ r c Hempty Hres).
    + rewrite (CreateChart_not_allocated E cfg opts s err w1 Halloc) in Hres.
      discriminate Hres.
  - intros repoURL version.
    apply CreateChart_scaffold_source_irrelevant. exact Hempty.
Qed.

(** The sample run for the kind [Memcached], with and without a repository
    URL and a version in the options. *)
Lemma CreateChart_empty_reference_scaffolds_witness :
  exists r c,
    fst (CreateChart Sample.env "cfg.example.com" Sample.scaffoldOpts
           (Sample.start (Sample.disk false false))) = (Some r, Some c, None) /\
    Name c = "memcached" /\
    CreateChart Sample.env "cfg.example.com"
      (with_source Sample.scaffoldOpts "https://charts.example.com" "1.2.3")
      (Sample.start (Sample.disk false false)) =
    CreateChart Sample.env "cfg.example.com" Sample.scaffoldOpts
      (Sample.start (Sample.disk false false)).
Proof.
  pose proof (CreateChart_empty_reference_scaffolds Sample.env
                "cfg.example.com" Sample.scaffoldOpts
                (Sample.start (Sample.disk false false)) eq_refl) as H.
  destruct H as (_ & Hname & Hsame).
  do 2 eexists. split; [vm_compute; reflexivity | ]. split.
  - eapply (Hname Sample_HelmLaws). vm_compute. reflexivity.
  - apply Hsame.
Defined.

(** *** A local chart *)

(** C6: for a chart reference that exists on disk and loads as a chart
    without declared dependencies, the chart [CreateChart] returns, loaded
    again from the workspace after the dependencies were built, has the name
    and the templates of the chart loaded from the reference (under Helm's
    contract for [SaveDir] and [Build]). *)
Theorem CreateChart_local_chart_roundtrip {W Cfg : Type} (E : Env W Cfg)
  (Hhelm : HelmLaws E)
  (cfg : Cfg) (opts : CreateOptions) (s s' : State W)
  (tmpDir : string) (w1 : W) (input c : Chart) (r : Resource)
  (Href : opts_Chart opts <> "")
  (Halloc : ioutil_TempDir E "" "osdk-helm-chart" (world s) = (Ok tmpDir, w1))
  (Hexists : exists_on_disk E (opts_Chart opts) w1)
  (Hinput : loader_Load E (opts_Chart opts) w1 = Ok input)
  (Hnodeps : Dependencies input = [])
  (Hrun : CreateChart E cfg opts s = ((Some r, Some c, None), s')) :
  Name c = Name input /\ Templates c = Templates input.
Proof.
  rewrite (CreateChart_allocated E cfg opts s tmpDir w1 Halloc) in Hrun.
  simpl in Hrun. injection Hrun as Hbody _. clear s'.
  revert Hbody. unfold exists_on_disk in Hexists.
  assert (Hlen : len0 (opts_Chart opts) = false).
  { destruct (len0 (opts_Chart opts)) eqn:Hlen; [ | reflexivity].
    apply len0_spec in Hlen. contradiction. }
  unfold_run. rewrite Hlen. simpl. rewrite Hexists. simpl.
  rewrite Hinput. simpl.
  destruct (chartutil_SaveDir E input tmpDir w1) as [[err | ] w2] eqn:Hsave;
    simpl; [discriminate | ].
  set (chartPath := filepath_Join E tmpDir (Name input)).
  destruct (manager_Build E chartPath w2) as [[out [err | ]] w3] eqn:Hbuild;
    simpl; [discriminate | ].
  destruct (loader_Load E chartPath w3) as [c1 | err] eqn:Hreload; simpl;
    [ | discriminate].
  intros Hres. injection Hres as _ Hc. subst c1.
  destruct (build_nodeps E Hhelm chartPath w2 out w3 Hbuild)
    as [saved [Hsaved Hkept]].
  destruct (savedir_load E Hhelm input tmpDir w1 w2 Hsave saved Hsaved)
    as [Hname [Htemplates Hdeps]].
  rewrite Hnodeps in Hdeps.
  destruct (Hkept Hdeps c Hreload) as [Hname' Htemplates'].
  split; congruence.
Qed.

(** The sample run on the local chart directory [./local-chart]. *)
Lemma CreateChart_local_chart_roundtrip_witness :
  exists r c,
    fst (CreateChart Sample.env "cfg.example.com" Sample.localOpts
           (Sample.start (Sample.disk false false))) = (Some r, Some c, None) /\
    Name c = Name Sample.myApp /\ Templates c = Templates Sample.myApp.
Proof.
  do 2 eexists. split; [vm_compute; reflexivity | ].
  eapply (CreateChart_local_chart_roundtrip Sample.env Sample_HelmLaws
            "cfg.example.com" Sample.localOpts
            (Sample.start (Sample.disk false false)) _ Sample.workspace _
            Sample.myApp).
  - discriminate.
  - reflexivity.
  - reflexivity.
  - reflexivity.
  - reflexivity.
  - vm_compute. reflexivity.
Defined.

(** * Further properties *)

(** ** Watch options *)

(** X1: [setDefaults] never leaves zero workers and changes nothing when
    applied again; asking for 0 workers through [WithWatchOptions] gives,
    after [setDefaults], the same operation as [NewWatchOp]. *)
Theorem setDefaults_never_zero_idempotent (op : Sdk.WatchOp) :
  Sdk.NumWorkers (Sdk.setDefaults op) <> 0 /\
  Sdk.setDefaults (Sdk.setDefaults op) = Sdk.setDefaults op /\
  Sdk.setDefaults (Sdk.WithWatchOptions 0 op) = Sdk.NewWatchOp.
Proof.
  unfold Sdk.setDefaults.
  destruct (Z.eqb_spec (Sdk.NumWorkers op) 0) as [Hz | Hnz]; simpl.
  - repeat split. discriminate.
  - destruct (Z.eqb_spec (Sdk.NumWorkers op) 0) as [Hz | _];
      [contradiction | ].
    repeat split. exact Hnz.
Qed.

(** [applyOpts] on two lists of options, one after the other. *)
Lemma applyOpts_app (a b : list Sdk.WatchOption) (op : Sdk.WatchOp) :
  Sdk.applyOpts (a ++ b) op = Sdk.applyOpts b (Sdk.applyOpts a op).
Proof. unfold Sdk.applyOpts. apply fold_left_app. Qed.

(** X2: [applyOpts] runs the options in order, so running a list made of two
    lists is running the first and then the second; of several
    [WithWatchOptions] the last one decides the number of workers, and with
    none the operation is unchanged. *)
Theorem applyOpts_last_option_wins (ns : list Z)
  (a b : list Sdk.WatchOption) (op : Sdk.WatchOp) :
  Sdk.applyOpts (a ++ b) op = Sdk.applyOpts b (Sdk.applyOpts a op) /\
  Sdk.applyOpts (List.map Sdk.WithWatchOptions ns) op =
    match last ns with
    | Some n => Sdk.mkWatchOp n
    | None => op
    end.
Proof.
  split; [apply applyOpts_app | ].
  destruct ns as [ | n ns] using rev_ind; [reflexivity | ].
  rewrite List.map_app, applyOpts_app, last_snoc. reflexivity.
Qed.

(** ** The build sub-command *)

(** X3: [buildFunc] exits with [ExitBadArgs] on every list of arguments,
    empty or not, in the state it started in: no script is ever started,
    nothing is printed and no index into the arguments is evaluated. *)
Theorem buildFunc_rejects_every_argument_list {W Cfg : Type}
  (E : Cmd.BuildEnv W Cfg) (args : list string) (s : Cmd.BState W) :
  Cmd.buildFunc E args s =
    (Cmd.Exited Cmd.ExitBadArgs "build command needs at least 1 argument.", s).
Proof.
  unfold Cmd.buildFunc, Cmd.pbind.
  rewrite badArgCount_always. reflexivity.
Qed.

(** ** The root command *)

(** Unfolds the root command down to the calls on viper. *)
Ltac unfold_root :=
  unfold Root.NewRootCmd, Root.initConfig, Root.rbind, Root.setter,
    Root.attempt, Root.logLine, Root.Fatalf, Root.mustGetwd,
    Root.configFileUsed, Root.rret in *;
  simpl in *.



(** ** The chart pipeline, further *)

(** The context of a stage and the cause can be read back from the message
    of a wrapped error. *)
Lemma stage_context_injective (a b : Stage) (c1 c2 : error) :
  Errorf_v (stage_context a) c1 = Errorf_v (stage_context b) c2 ->
  a = b /\ c1 = c2.
Proof.
  unfold Errorf_v.
  destruct a, b; simpl; intros H; simplify_eq; split; reflexivity.
Qed.

(** X6: when [CreateChart] has allocated its workspace and returns an error,
    the message of that error starts with the context of exactly one stage:
    the stage and the cause can be read back from it without ambiguity. *)
Theorem CreateChart_error_names_one_stage {W Cfg : Type} (E : Env W Cfg)
  (cfg : Cfg) (opts : CreateOptions) (s : State W) (tmpDir : string) (w1 : W)
  (e : error)
  (Halloc : ioutil_TempDir E "" "osdk-helm-chart" (world s) = (Ok tmpDir, w1))
  (Herr : fst (CreateChart E cfg opts s) = (None, None, Some e)) :
  exists st cause,
    e = Errorf_v (stage_context st) cause /\
    forall st' cause',
      e = Errorf_v (stage_context st') cause' -> st' = st /\ cause' = cause.
Proof.
  rewrite (CreateChart_allocated E cfg opts s tmpDir w1 Halloc) in Herr.
  simpl in Herr.
  destruct (createIn_all_or_nothing E cfg opts tmpDir
              (mkState w1 (trace s ++ [EvTempDir "" "osdk-helm-chart"])
                 (stdout s) (logs s))) as [Hall _].
  destruct Hall as [[r [c Hok]] | [st [cause Hfail]]].
  - rewrite Hok in Herr. discriminate Herr.
  - rewrite Hfail in Herr. injection Herr as He. subst e.
    exists st, cause. split; [reflexivity | ].
    intros st' cause' Hsame. symmetry in Hsame.
    apply stage_context_injective in Hsame. exact Hsame.
Qed.

(** A chart the repository does not serve: the message names the fetch
    stage and no other. *)
Lemma CreateChart_error_names_one_stage_witness :
  exists st cause,
    "failed to fetch chart: chart not found: myrepo/missing-chart" =
      Errorf_v (stage_context st) cause /\
    forall st' cause',
      "failed to fetch chart: chart not found: myrepo/missing-chart" =
        Errorf_v (stage_context st') cause' ->
      st' = st /\ cause' = cause.
Proof.
  eapply (CreateChart_error_names_one_stage Sample.env "cfg.example.com"
            Sample.missingOpts (Sample.start (Sample.disk false false))
            Sample.workspace).
  - reflexivity.
  - vm_compute. reflexivity.
Defined.

(** The body of [CreateChart] prints nothing, or the output of a failed
    build of the dependencies, and then returns that failure. *)
Lemma createIn_stdout {W Cfg : Type} (E : Env W Cfg)
  (cfg : Cfg) (opts : CreateOptions) (tmpDir : string) (s : State W) :
  let body := createIn E cfg opts tmpDir s in
  stdout (snd body) = stdout s \/
  exists chartPath w out cause w',
    manager_Build E chartPath w = ((out, Some cause), w') /\
    stdout (snd body) = stdout s ++ [out] /\
    fst body =
      (None, None, Some (Errorf_v "failed to fetch chart dependencies: " cause)).
Proof.
  unfold_run.
  repeat step;
    repeat match goal with
           | p : (string * option error)%type |- _ => destruct p
           end;
    simpl in *; simplify_eq;
    first [ left; reflexivity
          | right; do 5 eexists; split; [eassumption | split; reflexivity] ].
Qed.


(** A chart whose dependency cannot be resolved: the output of the build is
    printed and the run fails in the dependency stage. *)
Example sample_needy_run :
  let run :=
    CreateChart Sample.env "cfg.example.com" Cases.needyOpts
      (Sample.start Cases.needyDisk) in
  fst run =
    (None, None,
     Some "failed to fetch chart dependencies: no repository definition for redis") /\
  stdout (snd run) =
    ["Getting updates for unmanaged Helm repositories: redis"] /\
  Sample.stat Sample.workspace (world (snd run)) <> None.
Proof. vm_compute. repeat split. discriminate. Qed.


(** Unfolds lookups in a list of calls, position by position. *)
Ltac positions i H :=
  repeat first
    [ discriminate H
    | destruct i as [ | i]; simpl in H;
      [ first [discriminate H | simplify_eq] | ] ].

(** In a run on a chart reference, a build of dependencies comes directly
    after the copy of the chart into the workspace, in the directory that
    copy writes. *)
Lemma createIn_builds_where_saved {W Cfg : Type} (E : Env W Cfg)
  (cfg : Cfg) (opts : CreateOptions) (tmpDir : string) (s : State W) :
  len0 (opts_Chart opts) = false ->
  exists evs,
    trace (snd (createIn E cfg opts tmpDir s)) = trace s ++ evs /\
    forall i chartPath,
      evs !! i = Some (EvBuild chartPath) ->
      exists j name,
        i = S j /\
        evs !! j = Some (EvSaveDir name tmpDir) /\
        chartPath = filepath_Join E tmpDir name /\
        forall k other, evs !! k = Some (EvBuild other) -> k = i.
Proof.
  intros Hlen. unfold_run. rewrite Hlen. simpl.
  repeat step; flat; eexists; (split; [reflexivity | ]);
    intros i chartPath Hi; positions i Hi;
    do 2 eexists; (split; [reflexivity | ]); (split; [reflexivity | ]);
    (split; [reflexivity | ]);
    intros k other Hk; positions k Hk; reflexivity.
Qed.

(** X8: in a run of [CreateChart] on a chart reference that is not empty,
    the dependencies are built at most once, directly after the chart was
    copied into the workspace by [SaveDir], and in the directory that copy
    writes: the workspace joined with the name of the chart. *)
Theorem CreateChart_builds_where_chart_was_saved {W Cfg : Type}
  (E : Env W Cfg) (cfg : Cfg) (opts : CreateOptions) (s : State W)
  (tmpDir : string) (w1 : W)
  (Href : opts_Chart opts <> "")
  (Halloc : ioutil_TempDir E "" "osdk-helm-chart" (world s) = (Ok tmpDir, w1)) :
  exists evs,
    trace (snd (CreateChart E cfg opts s)) = trace s ++ evs /\
    forall i chartPath,
      evs !! i = Some (EvBuild chartPath) ->
      exists j name,
        i = S j /\
        evs !! j = Some (EvSaveDir name tmpDir) /\
        chartPath = filepath_Join E tmpDir name /\
        forall k other, evs !! k = Some (EvBuild other) -> k = i.
Proof.
  assert (Hlen : len0 (opts_Chart opts) = false).
  { unfold len0. destruct (opts_Chart opts); [contradiction | reflexivity]. }
  rewrite (CreateChart_allocated E cfg opts s tmpDir w1 Halloc). simpl.
  destruct (createIn_builds_where_saved E cfg opts tmpDir
              (mkState w1 (trace s ++ [EvTempDir "" "osdk-helm-chart"])
                 (stdout s) (logs s)) Hlen) as [evs [Htrace Hbuild]].
  simpl in Htrace.
  exists (EvTempDir "" "osdk-helm-chart" :: evs ++ [EvRemoveAll tmpDir]).
  rewrite Htrace. repeat rewrite <- app_assoc. simpl.
  split; [reflexivity | ].
  assert (Hin : forall k p,
            (EvTempDir "" "osdk-helm-chart" :: evs ++ [EvRemoveAll tmpDir])
              !! k = Some (EvBuild p) ->
            exists k', k = S k' /\ evs !! k' = Some (EvBuild p)).
  { intros k p Hk. destruct k as [ | k']; [discriminate Hk | ].
    exists k'. split; [reflexivity | ]. simpl in Hk.
    destruct (decide (k' < length evs)%nat) as [Hlt | Hge].
    - rewrite lookup_app_l in Hk by exact Hlt. exact Hk.
    - rewrite lookup_app_r in Hk by lia.
      destruct (k' - length evs)%nat as [ | d]; discriminate Hk. }
  intros i chartPath Hi.
  destruct (Hin i chartPath Hi) as [i' [-> Hi']].
  destruct (Hbuild i' chartPath Hi') as [j [name [-> [Hj [Hpath Honce]]]]].
  exists (S j), name. split; [reflexivity | ]. split.
  - simpl. rewrite lookup_app_l; [exact Hj | ].
    apply lookup_lt_Some in Hj. exact Hj.
  - split; [exact Hpath | ].
    intros k other Hk.
    destruct (Hin k other Hk) as [k' [-> Hk']].
    f_equal. apply (Honce k' other Hk').
Qed.

(** The run on the chart of the repository: one build, at position 5,
    directly after the copy of [web] into the workspace. *)
Lemma CreateChart_builds_where_chart_was_saved_witness :
  exists evs,
    trace (snd (CreateChart Sample.env "cfg.example.com" Sample.remoteOpts
                  (Sample.start (Sample.disk false false)))) = [] ++ evs /\
    evs !! 5%nat = Some (EvBuild "/tmp/osdk-helm-chart042/web") /\
    evs !! 4%nat = Some (EvSaveDir "web" "/tmp/osdk-helm-chart042").
Proof.
  edestruct (CreateChart_builds_where_chart_was_saved Sample.env
               "cfg.example.com" Sample.remoteOpts
               (Sample.start (Sample.disk false false)) Sample.workspace)
    as [evs [Htrace Hbuild]].
  - discriminate.
  - reflexivity.
  - exists evs. split; [exact Htrace | ].
    assert (Hevs : evs =
      trace (snd (CreateChart Sample.env "cfg.example.com" Sample.remoteOpts
                    (Sample.start (Sample.disk false false))))) by
      (symmetry; exact Htrace).
    vm_compute in Hevs. subst evs. split; reflexivity.
Defined.

(** X9: [createChartFromRemote] looks the chart up in a repository index
    only when a repository URL is given, and then before anything else.
    When that lookup fails, its error is returned and nothing is
    downloaded; when it succeeds, the next call downloads the URL it
    returned, with the version of the options.  Without a repository URL
    the first call downloads the chart reference itself. *)
Theorem createChartFromRemote_lookup_then_download {W Cfg : Type}
  (E : Env W Cfg) (destDir : string) (opts : CreateOptions) (s : State W) :
  let run := createChartFromRemote E destDir opts s in
  exists evs,
    trace (snd run) = trace s ++ evs /\
    if String.eqb (opts_Repo opts) "" then
      hd_error evs =
        Some (EvDownloadTo (opts_Chart opts) (opts_Version opts) destDir) /\
      existsb Cases.lookup_event evs = false
    else
      hd_error evs =
        Some (EvFindChartInRepoURL (opts_Repo opts) (opts_Chart opts)
                (opts_Version opts)) /\
      match repo_FindChartInRepoURL E (opts_Repo opts) (opts_Chart opts)
              (opts_Version opts) (world s) with
      | (Err err, w) =>
          evs =
            [EvFindChartInRepoURL (opts_Repo opts) (opts_Chart opts)
               (opts_Version opts)] /\
          fst run = Err err /\ world (snd run) = w
      | (Ok chartURL, _) =>
          evs !! 1%nat = Some (EvDownloadTo chartURL (opts_Version opts) destDir)
      end.
Proof.
  unfold_run.
  destruct (String.eqb (opts_Repo opts) "") eqn:Hrepo; simpl;
    repeat step; flat; eexists; (split; [reflexivity | ]); simpl;
    repeat split; reflexivity.
Qed.

(** A repository that cannot be reached: the lookup fails and nothing is
    downloaded. *)
Lemma createChartFromRemote_lookup_then_download_witness :
  exists evs,
    trace (snd (createChartFromRemote Cases.offline Sample.workspace
                  Cases.repoOpts (Sample.start (Sample.disk false false)))) =
      [] ++ evs /\
    evs = [EvFindChartInRepoURL "https://charts.example.com" "web" "1.2.3"] /\
    fst (createChartFromRemote Cases.offline Sample.workspace Cases.repoOpts
           (Sample.start (Sample.disk false false))) =
      Err "looks like https://charts.example.com is not a valid chart repository".
Proof.
  destruct (createChartFromRemote_lookup_then_download Cases.offline
              Sample.workspace Cases.repoOpts
              (Sample.start (Sample.disk false false)))
    as [evs [Htrace [_ [Hevs [Hres _]]]]].
  exists evs. split; [exact Htrace | ]. split; [exact Hevs | exact Hres].
Defined.

(** X10: a chart reference that exists on disk but does not load as a chart
    fails the run with the error of the loader under the context of the
    fetch stage.  No repository is tried instead, nothing is copied into the
    workspace or built, nothing is printed, and the workspace is removed as
    it was allocated. *)
Theorem CreateChart_unloadable_local_path_fails {W Cfg : Type}
  (E : Env W Cfg) (cfg : Cfg) (opts : CreateOptions) (s : State W)
  (tmpDir : string) (w1 : W) (err : error)
  (Href : opts_Chart opts <> "")
  (Halloc : ioutil_TempDir E "" "osdk-helm-chart" (world s) = (Ok tmpDir, w1))
  (Hexists : exists_on_disk E (opts_Chart opts) w1)
  (Hload : loader_Load E (opts_Chart opts) w1 = Err err) :
  let run := CreateChart E cfg opts s in
  fst run = (None, None, Some (Errorf_v "failed to fetch chart: " err)) /\
  trace (snd run) =
    trace s ++
    [EvTempDir "" "osdk-helm-chart"; EvStat (opts_Chart opts);
     EvLoad (opts_Chart opts); EvRemoveAll tmpDir] /\
  world (snd run) = snd (os_RemoveAll E tmpDir w1) /\
  stdout (snd run) = stdout s.
Proof.
  intros run. subst run.
  assert (Hlen : len0 (opts_Chart opts) = false).
  { unfold len0. destruct (opts_Chart opts); [contradiction | reflexivity]. }
  rewrite (CreateChart_allocated E cfg opts s tmpDir w1 Halloc). simpl.
  unfold exists_on_disk in Hexists.
  unfold createIn, fetchChart, createChartFromDisk, bind, read, ret.
  rewrite Hlen. simpl. rewrite Hexists. simpl. rewrite Hload. simpl.
  repeat split. flat. reflexivity.
Qed.

(** A directory that holds no chart. *)
Lemma CreateChart_unloadable_local_path_fails_witness :
  fst (CreateChart Sample.env "cfg.example.com" Cases.plainOpts
         (Sample.start Cases.plainDisk)) =
    (None, None,
     Some (Errorf_v "failed to fetch chart: "
             "./not-a-chart: Chart.yaml file is missing")) /\
  trace (snd (CreateChart Sample.env "cfg.example.com" Cases.plainOpts
                (Sample.start Cases.plainDisk))) =
    [] ++
    [EvTempDir "" "osdk-helm-chart"; EvStat "./not-a-chart";
     EvLoad "./not-a-chart"; EvRemoveAll Sample.workspace].
Proof.
  edestruct (CreateChart_unloadable_local_path_fails Sample.env
               "cfg.example.com" Cases.plainOpts
               (Sample.start Cases.plainDisk) Sample.workspace)
    as [Hres [Htrace _]].
  - discriminate.
  - reflexivity.
  - reflexivity.
  - reflexivity.
  - split; [exact Hres | exact Htrace].
Defined.

(** X11: without a chart reference no default is applied: the resource
    [CreateChart] returns is built from the options as they were given, so
    a group, version or kind left empty stays empty in the resource. *)
Theorem CreateChart_scaffold_applies_no_defaults {W Cfg : Type}
  (E : Env W Cfg) (cfg : Cfg) (opts : CreateOptions) (s s' : State W)
  (r : Resource) (c : option Chart) (err : option error)
  (Hempty : opts_Chart opts = "")
  (Hrun : CreateChart E cfg opts s = ((Some r, c, err), s')) :
  r = NewResource E opts cfg /\
  (GolangLaw E ->
   r_Group r = gvk_Group (opts_GVK opts) /\
   r_Version r = gvk_Version (opts_GVK opts) /\
   r_Kind r = gvk_Kind (opts_GVK opts)).
Proof.
  assert (Hr : r = NewResource E opts cfg).
  { revert Hrun. unfold_run. rewrite Hempty. simpl. revert s'.
    repeat step; intros s' Hrun; simplify_eq; reflexivity. }
  split; [exact Hr | ].
  intros Hlib. rewrite Hr. unfold NewResource. simpl.
  match goal with
  | |- context [golang_NewResource E ?ro cfg] =>
      destruct (Hlib ro cfg) as [Hg [Hv Hk]]
  end.
  rewrite Hg, Hv, Hk. repeat split.
Qed.

(** The default chart for options without group, version or kind. *)
Lemma CreateChart_scaffold_applies_no_defaults_witness :
  exists r,
    fst (fst (fst (CreateChart Sample.env "cfg.example.com" Cases.bareOpts
                     (Sample.start (Sample.disk false false))))) = Some r /\
    r_Group r = "" /\ r_Version r = "" /\ r_Kind r = "".
Proof.
  eexists. split; [vm_compute; reflexivity | ].
  eapply (CreateChart_scaffold_applies_no_defaults Sample.env
            "cfg.example.com" Cases.bareOpts
            (Sample.start (Sample.disk false false))).
  - reflexivity.
  - vm_compute. reflexivity.
  - apply Sample_GolangLaw.
Defined.

(** The body of [CreateChart] scaffolds, copies and downloads into the
    workspace only, and builds dependencies in a directory joined to it. *)
Lemma createIn_writes_into_workspace {W Cfg : Type} (E : Env W Cfg)
  (cfg : Cfg) (opts : CreateOptions) (tmpDir : string) (s : State W) :
  exists evs,
    trace (snd (createIn E cfg opts tmpDir s)) = trace s ++ evs /\
    Forall
      (fun ev =>
         (forall dir, Cases.destination ev = Some dir -> dir = tmpDir) /\
         (forall chartPath,
            ev = EvBuild chartPath ->
            exists name, chartPath = filepath_Join E tmpDir name))
      evs.
Proof.
  unfold_run.
  repeat step; flat; eexists; (split; [reflexivity | ]);
    repeat constructor; simpl; intros; simplify_eq;
    first [reflexivity | eexists; reflexivity].
Qed.

(** X12: every call of a run of [CreateChart] that scaffolds, copies or
    downloads a chart writes into the workspace of that run, and a build of
    dependencies works in a directory joined to the workspace: the chart
    reference itself is only read. *)
Theorem CreateChart_writes_into_workspace_only {W Cfg : Type}
  (E : Env W Cfg) (cfg : Cfg) (opts : CreateOptions) (s : State W)
  (tmpDir : string) (w1 : W)
  (Halloc : ioutil_TempDir E "" "osdk-helm-chart" (world s) = (Ok tmpDir, w1)) :
  exists evs,
    trace (snd (CreateChart E cfg opts s)) = trace s ++ evs /\
    Forall
      (fun ev =>
         (forall dir, Cases.destination ev = Some dir -> dir = tmpDir) /\
         (forall chartPath,
            ev = EvBuild chartPath ->
            exists name, chartPath = filepath_Join E tmpDir name))
      evs.
Proof.
  rewrite (CreateChart_allocated E cfg opts s tmpDir w1 Halloc). simpl.
  destruct (createIn_writes_into_workspace E cfg opts tmpDir
              (mkState w1 (trace s ++ [EvTempDir "" "osdk-helm-chart"])
                 (stdout s) (logs s))) as [evs [Htrace Hall]].
  simpl in Htrace.
  exists (EvTempDir "" "osdk-helm-chart" :: evs ++ [EvRemoveAll tmpDir]).
  rewrite Htrace. repeat rewrite <- app_assoc. simpl.
  split; [reflexivity | ].
  constructor.
  - split; [intros dir Hd; discriminate Hd | intros p Hp; discriminate Hp].
  - apply Forall_app. split; [exact Hall | ].
    constructor; [ | constructor].
    split; [intros dir Hd; discriminate Hd | intros p Hp; discriminate Hp].
Qed.

(** The run on the chart of the repository: the download and the copy go
    into the workspace. *)
Lemma CreateChart_writes_into_workspace_only_witness :
  exists evs,
    trace (snd (CreateChart Sample.env "cfg.example.com" Sample.remoteOpts
                  (Sample.start (Sample.disk false false)))) = [] ++ evs /\
    Forall
      (fun ev =>
         forall dir, Cases.destination ev = Some dir -> dir = Sample.workspace)
      evs /\
    In (EvDownloadTo "stable/web" "" Sample.workspace) evs.
Proof.
  edestruct (CreateChart_writes_into_workspace_only Sample.env
               "cfg.example.com" Sample.remoteOpts
               (Sample.start (Sample.disk false false)) Sample.workspace)
    as [evs [Htrace Hall]].
  - reflexivity.
  - exists evs. split; [exact Htrace | ]. split.
    + eapply Forall_impl; [exact Hall | ].
      intros ev [Hdest _]. exact Hdest.
    + assert (Hevs : evs =
        trace (snd (CreateChart Sample.env "cfg.example.com" Sample.remoteOpts
                      (Sample.start (Sample.disk false false))))) by
        (symmetry; exact Htrace).
      rewrite Hevs. vm_compute. right. right. left. reflexivity.
Defined.

(** Runs of the root command on the sample configuration. *)
Example sample_initConfig_unreadable :
  Root.initConfig Cases.viper "" (Cases.rstart false) =
    (Root.Returned None,
     Root.mkRState false
       [Root.AddConfigPath "/home/dev/app-operator";
        Root.SetConfigName ".test-osdk-scorecard";
        Root.SetEnvPrefix "osdk"; Root.AutomaticEnv; Root.ReadInConfig]
       [(Root.WarnLevel, "Could not load config file; using flags")]).
Proof. reflexivity. Qed.

Example sample_root_command :
  let run :=
    @Root.NewRootCmd bool unit string Cases.viper SampleBuild.env
      "/etc/osdk.yaml" (Cases.rstart true) in
  (Root.Use <$> (match fst run with
                 | Root.Returned cmd => Root.Commands cmd
                 | Root.Fatal => []
                 end)) =
    ["new"; "add"; "build <image> <path to template>"; "generate"; "up";
     "completion"; "test"; "scorecard"; "print-deps"; "migrate"; "run";
     "olm-catalog"] /\
  Root.rlogs (snd run) =
    [(Root.InfoLevel, "Using config file: /etc/osdk.yaml")].
Proof. split; reflexivity. Qed.
